(** * NewsSection: the news widget's retrieval chain

    A shallow embedding of [src/components/NewsSection.tsx]: the two
    provider clients ([fetchAlphaVantageNews], [fetchNewsAPI]), the
    placeholder dataset ([getMockNews]) and the orchestration
    ([fetchNews]), together with the part of JavaScript they rely on
    (JSON values, property reads, truthiness, [toLowerCase], [includes],
    [toISOString], [try]/[catch]/[finally]). *)

From Stdlib Require Import String Ascii ZArith List Bool Arith Lia DecimalString DecimalNat.
From ExtLib Require Import Structures.Monad Structures.MonadExc.
Import ListNotations.
Import MonadNotation.

Local Open Scope string_scope.
Local Open Scope Z_scope.
Local Open Scope monad_scope.

Set Implicit Arguments.
Set Warnings "-register-all".

(* ===================================================================== *)
(** * JavaScript values and built-ins *)
(* ===================================================================== *)

(** What [response.json()] can produce.  Numbers are kept as integers: the
    component only ever tests a number for truthiness.  [JObj] holds the
    own properties of the parsed object, one binding per key. *)
Inductive json : Type :=
| JNull
| JBool (b : bool)
| JNum (n : Z)
| JStr (s : string)
| JArr (items : list json)
| JObj (fields : list (string * json)).

(** A JavaScript value as the component sees it: [None] is [undefined]. *)
Definition value := option json.
Definition undefined : value := None.

(** Errors that can be thrown along the chain. *)
Inductive exn : Type :=
| Error (message : value)   (* [new Error(message)] *)
| TypeError                 (* property read on null/undefined, call of a non-function *)
| FetchRejected             (* [fetch] rejected: transport failure *)
| JsonRejected.             (* [response.json()] rejected: the body is not JSON *)

(** The result of evaluating an expression: a value or a thrown error. *)
Inductive Outcome (A : Type) : Type :=
| Returned (a : A)
| Threw (e : exn).
Arguments Returned {A} a.
Arguments Threw {A} e.

#[global] Instance Monad_Outcome : Monad Outcome :=
  {| ret := fun _ a => Returned a;
     bind := fun _ _ c k => match c with Returned a => k a | Threw e => Threw e end |}.

(** ToBoolean. *)
Definition truthy (v : value) : bool :=
  match v with
  | None => false
  | Some JNull => false
  | Some (JBool b) => b
  | Some (JNum n) => negb (n =? 0)
  | Some (JStr s) => negb (String.eqb s "")
  | Some (JArr _) => true
  | Some (JObj _) => true
  end.

Fixpoint lookup (k : string) (fields : list (string * json)) : value :=
  match fields with
  | [] => None
  | (k', v) :: rest => if String.eqb k k' then Some v else lookup k rest
  end.

(** [v.k] for the property names the component reads ([feed], [title],
    [articles], [name], ...): none of them is a built-in property of a
    string, number, boolean or array, nor of [Object.prototype], so only an
    own property of an object yields a value; reading from [null] or
    [undefined] throws. *)
Definition prop (v : value) (k : string) : Outcome value :=
  match v with
  | None => Threw TypeError
  | Some JNull => Threw TypeError
  | Some (JObj fields) => Returned (lookup k fields)
  | Some _ => Returned None
  end.

(** [a || b] on values. *)
Definition or_else (a b : value) : value := if truthy a then a else b.

(** ** Strings *)

(** [String.prototype.toLowerCase] on the ASCII range: what the method
    does to the component's own literals, which are ASCII.  Upstream text is
    lowered by the engine, see [Engine] below. *)
Definition lower_ascii (c : ascii) : ascii :=
  let n := nat_of_ascii c in
  if (65 <=? n)%nat && (n <=? 90)%nat then ascii_of_nat (n + 32) else c.

Fixpoint toLowerCase (s : string) : string :=
  match s with
  | EmptyString => EmptyString
  | String c rest => String (lower_ascii c) (toLowerCase rest)
  end.

(** [s.includes(sub)]. *)
Fixpoint includes (s sub : string) : bool :=
  if String.prefix sub s then true
  else match s with
       | EmptyString => false
       | String _ rest => includes rest sub
       end.

(** [index.toString()] for an array index. *)
Definition index_toString (index : nat) : string :=
  NilEmpty.string_of_uint (Nat.to_uint index).

(** ** Dates *)

Definition digit (d : Z) : ascii := ascii_of_nat (48 + Z.to_nat d).

(** The last [width] decimal digits of [n], zero padded. *)
Fixpoint pad (width : nat) (n : Z) : string :=
  match width with
  | O => ""
  | S w => pad w (n / 10) ++ String (digit (n mod 10)) ""
  end.

(** Day number since 1970-01-01 to (year, month, day), proleptic Gregorian. *)
Definition civil_from_days (days : Z) : Z * Z * Z :=
  let z := days + 719468 in
  let era := z / 146097 in
  let doe := z mod 146097 in
  let yoe := (doe - doe / 1460 + doe / 36524 - doe / 146096) / 365 in
  let doy := doe - (365 * yoe + yoe / 4 - yoe / 100) in
  let mp := (5 * doy + 2) / 153 in
  let d := doy - (153 * mp + 2) / 5 + 1 in
  let m := if mp <? 10 then mp + 3 else mp - 9 in
  let y := yoe + era * 400 + (if m <=? 2 then 1 else 0) in
  (y, m, d).

(** [new Date(t).toISOString()] for a time value [t] in milliseconds. *)
Definition toISOString (t : Z) : string :=
  let '(y, m, d) := civil_from_days (t / 86400000) in
  let ms := t mod 86400000 in
  let year :=
    if (0 <=? y) && (y <=? 9999) then pad 4 y
    else (if y <? 0 then "-" else "+") ++ pad 6 (Z.abs y) in
  year ++ "-" ++ pad 2 m ++ "-" ++ pad 2 d ++ "T"
       ++ pad 2 (ms / 3600000) ++ ":" ++ pad 2 ((ms / 60000) mod 60) ++ ":"
       ++ pad 2 ((ms / 1000) mod 60) ++ "." ++ pad 3 (ms mod 1000) ++ "Z".

(* ===================================================================== *)
(** * The component's state and its effects *)
(* ===================================================================== *)

(** [interface NewsItem].  The fields filled from an upstream payload hold
    whatever the payload held ([undefined] when it held nothing); [id],
    [category] and [sentiment] are produced by the component itself. *)
Record NewsItem : Type := {
  id : string;
  title : value;
  description : value;
  url : value;
  publishedAt : value;
  source : value;
  category : option string;
  imageUrl : value;
  sentiment : option string
}.

(** The five [useState] cells of the component. *)
Record State : Type := {
  news : list NewsItem;
  loading : bool;
  error : option string;
  selectedCategory : string;
  lastUpdated : Z
}.

(** The two GET requests the component issues, by their variable parts. *)
Inductive request : Type :=
| AlphaVantageReq (apikey : string)
| NewsApiReq (q : string) (pageSize : Z) (apiKey : string).

(** What comes back: [fetch] rejects, or resolves with a status and a body
    that [response.json()] parses ([Some]) or rejects ([None]). *)
Inductive http : Type :=
| NetworkFailure
| Response (status : Z) (body : option json).

(** What a refresh leaves behind besides the state: requests sent, console
    lines, and a mark for each call of [getMockNews]. *)
Inductive event : Type :=
| EFetch (r : request)
| EWarn (msg : string)
| EError (msg : string)
| EMock.

(** Text made of ASCII characters only. *)
Definition isAscii (s : string) : bool :=
  forallb (fun c => (nat_of_ascii c <? 128)%nat) (list_ascii_of_string s).

(** The JavaScript engine, as far as upstream text reaches it: its
    [String.prototype.toLowerCase] on strings of any script (a string is its
    UTF-8 bytes).  The case tables are the engine's and are not reproduced;
    what is kept of them is that ASCII text is lowered as [toLowerCase] above
    does, that no text but the empty one is lowered to the empty string, and
    that no capital A-Z is left in a result. *)
Record Engine : Type := {
  String_toLowerCase : string -> string;
  String_toLowerCase_ascii :
    forall s, isAscii s = true -> String_toLowerCase s = toLowerCase s;
  String_toLowerCase_empty :
    forall s, String_toLowerCase s = "" -> s = "";
  String_toLowerCase_lowered :
    forall s, toLowerCase (String_toLowerCase s) = String_toLowerCase s
}.

(** The surroundings of a run: [process.env], the upstream providers, the
    successive readings of the system clock, and the engine. *)
Record Env : Type := {
  REACT_APP_NEWS_API_KEY : option string;
  REACT_APP_ALPHA_VANTAGE_API_KEY : option string;
  network : request -> http;
  clock : nat -> Z;
  engine : Engine
}.

Record World : Type := {
  ui : State;
  ticks : nat;            (* clock readings taken so far *)
  trace : list event
}.

(** Computations of the component: they read [Env], update [World], and
    return or throw. *)
Definition M (A : Type) : Type := Env -> World -> Outcome A * World.

#[global] Instance Monad_M : Monad M :=
  {| ret := fun _ a => fun _ w => (Returned a, w);
     bind := fun _ _ c k => fun env w =>
       match c env w with
       | (Returned a, w') => k a env w'
       | (Threw e, w') => (Threw e, w')
       end |}.

(** [throw] and [try { c } catch (e) { h e }]. *)
#[global] Instance MonadExc_M : MonadExc exn M :=
  {| raise := fun _ e => fun _ w => (Threw e, w);
     catch := fun _ c h => fun env w =>
       match c env w with
       | (Returned a, w') => (Returned a, w')
       | (Threw e, w') => h e env w'
       end |}.

(** [try { c } finally { f }]: [f] runs either way; the outcome of [c]
    stands unless [f] itself throws. *)
Definition finally {A : Type} (c : M A) (f : M unit) : M A :=
  fun env w =>
    match c env w with
    | (r, w') =>
        match f env w' with
        | (Returned _, w'') => (r, w'')
        | (Threw e, w'') => (Threw e, w'')
        end
    end.

Definition liftO {A : Type} (o : Outcome A) : M A := fun _ w => (o, w).
Definition asks {A : Type} (f : Env -> A) : M A := fun env w => (Returned (f env), w).
Definition gets {A : Type} (f : State -> A) : M A := fun _ w => (Returned (f (ui w)), w).

Definition modify (f : State -> State) : M unit :=
  fun _ w => (Returned tt, {| ui := f (ui w); ticks := ticks w; trace := trace w |}).

Definition emit (e : event) : M unit :=
  fun _ w => (Returned tt, {| ui := ui w; ticks := ticks w; trace := trace w ++ [e] |}).

(** [Date.now()] / [new Date()]: the next reading of the clock. *)
Definition Date_now : M Z :=
  fun env w => (Returned (clock env (ticks w)),
                {| ui := ui w; ticks := S (ticks w); trace := trace w |}).

(** [await fetch(url)] followed by [await response.json()].  The status is
    not inspected by the component. *)
Definition bodyOf (h : http) : Outcome json :=
  match h with
  | NetworkFailure => Threw FetchRejected
  | Response _ None => Threw JsonRejected
  | Response _ (Some data) => Returned data
  end.

Definition fetch_json (r : request) : M json :=
  emit (EFetch r) ;;
  net <- asks network ;;
  liftO (bodyOf (net r)).

Definition setNews (v : list NewsItem) : M unit :=
  modify (fun s => {| news := v; loading := loading s; error := error s;
                      selectedCategory := selectedCategory s; lastUpdated := lastUpdated s |}).
Definition setLoading (v : bool) : M unit :=
  modify (fun s => {| news := news s; loading := v; error := error s;
                      selectedCategory := selectedCategory s; lastUpdated := lastUpdated s |}).
Definition setError (v : option string) : M unit :=
  modify (fun s => {| news := news s; loading := loading s; error := v;
                      selectedCategory := selectedCategory s; lastUpdated := lastUpdated s |}).
Definition setSelectedCategory (v : string) : M unit :=
  modify (fun s => {| news := news s; loading := loading s; error := error s;
                      selectedCategory := v; lastUpdated := lastUpdated s |}).
Definition setLastUpdated (v : Z) : M unit :=
  modify (fun s => {| news := news s; loading := loading s; error := error s;
                      selectedCategory := selectedCategory s; lastUpdated := v |}).

(** [const NEWS_API_KEY = process.env.REACT_APP_NEWS_API_KEY || ''] *)
Definition NEWS_API_KEY (env : Env) : string :=
  match REACT_APP_NEWS_API_KEY env with
  | Some k => if String.eqb k "" then "" else k
  | None => ""
  end.

(** [const ALPHA_VANTAGE_API_KEY = process.env.REACT_APP_ALPHA_VANTAGE_API_KEY || 'demo'] *)
Definition ALPHA_VANTAGE_API_KEY (env : Env) : string :=
  match REACT_APP_ALPHA_VANTAGE_API_KEY env with
  | Some k => if String.eqb k "" then "demo" else k
  | None => "demo"
  end.

(* ===================================================================== *)
(** * The provider clients *)
(* ===================================================================== *)

(** [arr.map((x, index) => f(x, index))] for a callback that may throw:
    elements are visited in order and the first throw aborts the map. *)
Fixpoint map_from {A B : Type} (f : A -> nat -> Outcome B) (index : nat) (l : list A)
  : Outcome (list B) :=
  match l with
  | [] => ret []
  | x :: rest =>
      y <- f x index ;;
      ys <- map_from f (S index) rest ;;
      ret (y :: ys)
  end.

Definition js_map {A B : Type} (f : A -> nat -> Outcome B) (l : list A) : Outcome (list B) :=
  map_from f 0%nat l.

(** [item.overall_sentiment_label?.toLowerCase() || 'neutral'].  The
    optional chain stops on [undefined] and [null]; on any other non-string
    the method is missing and the call throws. *)
Definition sentimentLabel (eng : Engine) (label : value) : Outcome string :=
  match label with
  | None => Returned "neutral"
  | Some JNull => Returned "neutral"
  | Some (JStr s) =>
      Returned (if String.eqb (String_toLowerCase eng s) "" then "neutral"
                else String_toLowerCase eng s)
  | Some _ => Threw TypeError
  end.

(** The callback of [data.feed.slice(0, 10).map(...)]. *)
Definition alphaVantageItem (eng : Engine) (item : json) (index : nat) : Outcome NewsItem :=
  t <- prop (Some item) "title" ;;
  d <- prop (Some item) "summary" ;;
  u <- prop (Some item) "url" ;;
  p <- prop (Some item) "time_published" ;;
  s <- prop (Some item) "source" ;;
  i <- prop (Some item) "banner_image" ;;
  l <- prop (Some item) "overall_sentiment_label" ;;
  sent <- sentimentLabel eng l ;;
  ret {| id := index_toString index; title := t; description := d; url := u;
         publishedAt := p; source := s; category := None; imageUrl := i;
         sentiment := Some sent |}.

(** [fetchAlphaVantageNews], from the parsed body on. *)
Definition alphaVantageFeed (eng : Engine) (data : json) : Outcome (list NewsItem) :=
  em <- prop (Some data) "Error Message" ;;
  if truthy em then Threw (Error (Some (JStr "Failed to fetch news data")))
  else
    feed <- prop (Some data) "feed" ;;
    match feed with
    | Some (JArr items) => js_map (alphaVantageItem eng) (firstn 10 items)
    | _ => ret []
    end.

Definition fetchAlphaVantageNews : M (list NewsItem) :=
  catch
    (key <- asks ALPHA_VANTAGE_API_KEY ;;
     data <- fetch_json (AlphaVantageReq key) ;;
     eng <- asks engine ;;
     liftO (alphaVantageFeed eng data))
    (fun error =>
       emit (EError "Error fetching Alpha Vantage news:") ;;
       raise error).

(** The [switch (category)] of [fetchNewsAPI]. *)
Definition newsApiQuery (category : string) : string :=
  if String.eqb category "technology" then
    "technology stocks OR tech earnings OR semiconductor"
  else if String.eqb category "earnings" then
    "earnings report OR quarterly results OR financial results"
  else
    "stock market OR investing OR financial markets".

(** The callback of [data.articles.map(...)]. *)
Definition newsApiItem (category : string) (article : json) (index : nat) : Outcome NewsItem :=
  t <- prop (Some article) "title" ;;
  d <- prop (Some article) "description" ;;
  u <- prop (Some article) "url" ;;
  p <- prop (Some article) "publishedAt" ;;
  src <- prop (Some article) "source" ;;
  s <- prop src "name" ;;
  i <- prop (Some article) "urlToImage" ;;
  ret {| id := index_toString index; title := t; description := d; url := u;
         publishedAt := p; source := s; category := Some category; imageUrl := i;
         sentiment := None |}.

(** [v === s] for a string literal [s]. *)
Definition strictEqString (v : value) (s : string) : bool :=
  match v with
  | Some (JStr x) => String.eqb x s
  | _ => false
  end.

(** [fetchNewsAPI], from the parsed body on.  [data.articles.map] throws
    unless [data.articles] is an array; nothing is sliced off the result. *)
Definition newsApiArticles (category : string) (data : json) : Outcome (list NewsItem) :=
  status <- prop (Some data) "status" ;;
  if strictEqString status "error" then
    msg <- prop (Some data) "message" ;;
    Threw (Error (or_else msg (Some (JStr "Failed to fetch news"))))
  else
    articles <- prop (Some data) "articles" ;;
    match articles with
    | Some (JArr arts) => js_map (newsApiItem category) arts
    | _ => Threw TypeError
    end.

Definition fetchNewsAPI (category : string) : M (list NewsItem) :=
  catch
    (key <- asks NEWS_API_KEY ;;
     data <- fetch_json (NewsApiReq (newsApiQuery category) 10 key) ;;
     liftO (newsApiArticles category data))
    (fun error =>
       emit (EError "Error fetching NewsAPI:") ;;
       raise error).

(* ===================================================================== *)
(** * The placeholder dataset *)
(* ===================================================================== *)

(** One entry of the [mockNews] literal; [published] is the time value of
    its [new Date(Date.now() - age)]. *)
Definition mockEntry (i t d : string) (published : Z) (src sent : string) : NewsItem :=
  {| id := i; title := Some (JStr t); description := Some (JStr d);
     url := Some (JStr "#"); publishedAt := Some (JStr (toISOString published));
     source := Some (JStr src); category := None; imageUrl := None;
     sentiment := Some sent |}.

(** The [mockNews] literal, given the five readings of [Date.now()] taken
    while it is built. *)
Definition mockNews (t1 t2 t3 t4 t5 : Z) : list NewsItem :=
  [ mockEntry "1" "Major Tech Stocks Rally as AI Sector Shows Strong Growth"
      "Technology stocks surged today as artificial intelligence companies reported better-than-expected quarterly results."
      (t1 - 3600000) "Financial Times" "positive";
    mockEntry "2" "Federal Reserve Holds Interest Rates Steady"
      "The Federal Reserve maintained current interest rates, citing stable inflation and employment data."
      (t2 - 7200000) "Reuters" "neutral";
    mockEntry "3" "Renewable Energy Stocks Gain Momentum"
      "Clean energy companies see increased investor interest following new government incentives."
      (t3 - 10800000) "Bloomberg" "positive";
    mockEntry "4" "Quarterly Earnings Season Begins with Mixed Results"
      "Early earnings reports show varied performance across different sectors of the market."
      (t4 - 14400000) "CNBC" "neutral";
    mockEntry "5" "Cryptocurrency Market Shows Signs of Recovery"
      "Digital assets rebound after recent volatility, with Bitcoin and Ethereum leading gains."
      (t5 - 18000000) "CoinDesk" "positive" ].

(** [item.title.toLowerCase().includes(kw)] on an entry of the literal,
    whose title is a string. *)
Definition titleIncludes (kw : string) (item : NewsItem) : bool :=
  match title item with
  | Some (JStr t) => includes (toLowerCase t) kw
  | _ => false
  end.

Definition isTechnology (item : NewsItem) : bool :=
  titleIncludes "tech" item || titleIncludes "ai" item || titleIncludes "crypto" item.

Definition isEarnings (item : NewsItem) : bool :=
  titleIncludes "earnings" item || titleIncludes "quarterly" item.

(** The filter on [selectedCategory] at the end of [getMockNews]. *)
Definition filterBySelected (selected : string) (items : list NewsItem) : list NewsItem :=
  if String.eqb selected "technology" then filter isTechnology items
  else if String.eqb selected "earnings" then filter isEarnings items
  else items.

Definition getMockNews : M (list NewsItem) :=
  emit EMock ;;
  t1 <- Date_now ;;
  t2 <- Date_now ;;
  t3 <- Date_now ;;
  t4 <- Date_now ;;
  t5 <- Date_now ;;
  selected <- gets selectedCategory ;;
  ret (filterBySelected selected (mockNews t1 t2 t3 t4 t5)).

(* ===================================================================== *)
(** * The orchestration *)
(* ===================================================================== *)

Definition nonEmptyString (s : string) : bool := negb (String.eqb s "").

Definition fixedMessage : string := "Failed to load news. Using sample data.".

Definition fetchNews (category : string) : M unit :=
  setLoading true ;;
  setError None ;;
  finally
    (catch
       (avKey <- asks ALPHA_VANTAGE_API_KEY ;;
        newsKey <- asks NEWS_API_KEY ;;
        (* let newsData = []; then the guarded provider calls *)
        fetched <-
          (if nonEmptyString avKey && negb (String.eqb avKey "demo") then
             catch fetchAlphaVantageNews
               (fun _ =>
                  emit (EWarn "Alpha Vantage news failed, trying NewsAPI...") ;;
                  if nonEmptyString newsKey then fetchNewsAPI category else ret [])
           else if nonEmptyString newsKey then fetchNewsAPI category
           else ret []) ;;
        newsData <-
          (if (length fetched =? 0)%nat then
             emit (EWarn "Using mock news data - configure API keys for real data") ;;
             getMockNews
           else ret fetched) ;;
        setNews newsData ;;
        now <- Date_now ;;
        setLastUpdated now)
       (fun err =>
          emit (EError "Error fetching news:") ;;
          setError (Some fixedMessage) ;;
          mock <- getMockNews ;;
          setNews mock))
    (setLoading false).

(** The refresh button: [onClick={() => fetchNews(selectedCategory)}]. *)
Definition requestRefresh : M unit :=
  selected <- gets selectedCategory ;;
  fetchNews selected.

(** A category button: [setSelectedCategory(category.id)], and, when the
    value changed, the effect [fetchNews(selectedCategory)]. *)
Definition selectCategory (c : string) : M unit :=
  selected <- gets selectedCategory ;;
  if String.eqb selected c then ret tt
  else setSelectedCategory c ;; fetchNews c.

(** How the presenter reads the state. *)
Inductive Phase : Type := Idle | Loading | Ready | DegradedReady.

Definition phase (s : State) : Phase :=
  if loading s then Loading
  else match error s with
       | Some _ => DegradedReady
       | None => Ready
       end.

(* ===================================================================== *)
(** * Describing a run *)
(* ===================================================================== *)

(** Nothing in this part is code of the component.  These definitions say
    in closed form what the computations above do; the lemmas
    [fetchAlphaVantageNews_run], [fetchNewsAPI_run], [getMockNews_run] and
    [fetchNews_run] prove that they say it right. *)

(** The world after [es] was appended to the trace. *)
Definition logged (w : World) (es : list event) : World :=
  {| ui := ui w; ticks := ticks w; trace := trace w ++ es |}.

(** What the primary client yields in [env], and what it logs. *)
Definition primaryOutcome (env : Env) : Outcome (list NewsItem) :=
  data <- bodyOf (network env (AlphaVantageReq (ALPHA_VANTAGE_API_KEY env))) ;;
  alphaVantageFeed (engine env) data.

Definition secondaryOutcome (env : Env) (category : string) : Outcome (list NewsItem) :=
  data <- bodyOf (network env (NewsApiReq (newsApiQuery category) 10 (NEWS_API_KEY env))) ;;
  newsApiArticles category data.

Definition onThrow {A : Type} (o : Outcome A) (es : list event) : list event :=
  match o with
  | Returned _ => []
  | Threw _ => es
  end.

(** The placeholder items handed out when the clock has been read [n]
    times and [selected] is the selected category. *)
Definition mockAt (env : Env) (n : nat) (selected : string) : list NewsItem :=
  filterBySelected selected
    (mockNews (clock env n) (clock env (1 + n)) (clock env (2 + n))
              (clock env (3 + n)) (clock env (4 + n))).

(** The two guards of [fetchNews]. *)
Definition avConfigured (env : Env) : bool :=
  nonEmptyString (ALPHA_VANTAGE_API_KEY env)
  && negb (String.eqb (ALPHA_VANTAGE_API_KEY env) "demo").

Definition newsConfigured (env : Env) : bool :=
  nonEmptyString (NEWS_API_KEY env).

Definition primaryRequest (env : Env) : request :=
  AlphaVantageReq (ALPHA_VANTAGE_API_KEY env).

Definition secondaryRequest (env : Env) (category : string) : request :=
  NewsApiReq (newsApiQuery category) 10 (NEWS_API_KEY env).

(** Outcome and trace of the secondary's slot in the chain. *)
Definition secondarySlot (env : Env) (category : string)
  : Outcome (list NewsItem) * list event :=
  if newsConfigured env then
    (secondaryOutcome env category,
     EFetch (secondaryRequest env category)
     :: onThrow (secondaryOutcome env category) [EError "Error fetching NewsAPI:"])
  else (Returned [], []).

(** Outcome and trace of the guarded provider calls of [fetchNews]. *)
Definition chain (env : Env) (category : string) : Outcome (list NewsItem) * list event :=
  if avConfigured env then
    match primaryOutcome env with
    | Returned l => (Returned l, [EFetch (primaryRequest env)])
    | Threw _ =>
        (fst (secondarySlot env category),
         ([EFetch (primaryRequest env); EError "Error fetching Alpha Vantage news:";
           EWarn "Alpha Vantage news failed, trying NewsAPI..."]
          ++ snd (secondarySlot env category))%list)
    end
  else secondarySlot env category.

(** The world a refresh started in [w] settles in. *)
Definition settled (env : Env) (w : World) (category : string) : World :=
  let selected := selectedCategory (ui w) in
  match chain env category with
  | (Returned l, es) =>
      if (length l =? 0)%nat then
        {| ui := {| news := mockAt env (ticks w) selected; loading := false;
                    error := None; selectedCategory := selected;
                    lastUpdated := clock env (5 + ticks w) |};
           ticks := (6 + ticks w)%nat;
           trace := (trace w ++ es
                     ++ [EWarn "Using mock news data - configure API keys for real data";
                         EMock])%list |}
      else
        {| ui := {| news := l; loading := false; error := None;
                    selectedCategory := selected;
                    lastUpdated := clock env (ticks w) |};
           ticks := (1 + ticks w)%nat;
           trace := (trace w ++ es)%list |}
  | (Threw _, es) =>
      {| ui := {| news := mockAt env (ticks w) selected; loading := false;
                  error := Some fixedMessage; selectedCategory := selected;
                  lastUpdated := lastUpdated (ui w) |};
         ticks := (5 + ticks w)%nat;
         trace := (trace w ++ es ++ [EError "Error fetching news:"; EMock])%list |}
  end.

(** The state a refresh ends in, and the events it adds to the trace. *)
Definition terminal (category : string) (env : Env) (w : World) : State :=
  ui (snd (fetchNews category env w)).

Definition tailEvents (env : Env) (category : string) : list event :=
  match chain env category with
  | (Returned [], es) =>
      (es ++ [EWarn "Using mock news data - configure API keys for real data"; EMock])%list
  | (Returned _, es) => es
  | (Threw _, es) => (es ++ [EError "Error fetching news:"; EMock])%list
  end.

(** The state a refresh settles in, from the outcome of the chain alone. *)
Definition settledState (o : Outcome (list NewsItem)) (env : Env) (w : World) : State :=
  let selected := selectedCategory (ui w) in
  match o with
  | Returned [] =>
      {| news := mockAt env (ticks w) selected; loading := false; error := None;
         selectedCategory := selected; lastUpdated := clock env (5 + ticks w) |}
  | Returned l =>
      {| news := l; loading := false; error := None;
         selectedCategory := selected; lastUpdated := clock env (ticks w) |}
  | Threw _ =>
      {| news := mockAt env (ticks w) selected; loading := false;
         error := Some fixedMessage; selectedCategory := selected;
         lastUpdated := lastUpdated (ui w) |}
  end.

(** The number of entries of the [articles] array in the secondary's
    response (0 when there is no such array). *)
Definition upstreamArticleCount (env : Env) (category : string) : nat :=
  match bodyOf (network env (secondaryRequest env category)) with
  | Returned (JObj fields) =>
      match lookup "articles" fields with
      | Some (JArr arts) => length arts
      | _ => 0%nat
      end
  | _ => 0%nat
  end.

(** The same surroundings with a credential put in place. *)
Definition withAlphaKey (k : string) (env : Env) : Env :=
  {| REACT_APP_NEWS_API_KEY := REACT_APP_NEWS_API_KEY env;
     REACT_APP_ALPHA_VANTAGE_API_KEY := Some k;
     network := network env; clock := clock env; engine := engine env |}.

Definition withNewsKey (k : string) (env : Env) : Env :=
  {| REACT_APP_NEWS_API_KEY := Some k;
     REACT_APP_ALPHA_VANTAGE_API_KEY := REACT_APP_ALPHA_VANTAGE_API_KEY env;
     network := network env; clock := clock env; engine := engine env |}.

(** The world with another category selected. *)
Definition withSelected (c : string) (w : World) : World :=
  {| ui := {| news := news (ui w); loading := loading (ui w); error := error (ui w);
              selectedCategory := c; lastUpdated := lastUpdated (ui w) |};
     ticks := ticks w; trace := trace w |}.

(** An item with its [publishedAt] left out. *)
Definition withoutPublishedAt (item : NewsItem) : NewsItem :=
  {| id := id item; title := title item; description := description item;
     url := url item; publishedAt := None; source := source item;
     category := category item; imageUrl := imageUrl item;
     sentiment := sentiment item |}.

(* ===================================================================== *)
(** * Vocabulary of the properties *)
(* ===================================================================== *)

Definition failsOrEmpty (o : Outcome (list NewsItem)) : Prop :=
  o = Returned [] \/ exists e, o = Threw e.

(** The secondary is reached by the chain and its fetch throws. *)
Definition secondaryThrowsInChain (env : Env) (category : string) : Prop :=
  newsConfigured env = true /\
  (avConfigured env = true -> exists e, primaryOutcome env = Threw e) /\
  exists e, secondaryOutcome env category = Threw e.

(** The sentiment values [interface NewsItem] declares. *)
Definition declaredSentiments : list string := ["positive"; "negative"; "neutral"].

(** Case-insensitive substring, in the words of the filtering policy: some
    stretch of the title reads as the keyword once case is ignored. *)
Definition containsCI (t kw : string) : Prop :=
  exists pre mid post, t = pre ++ mid ++ post /\ toLowerCase mid = toLowerCase kw.

(** The title of the item contains one of the keywords, case ignored. *)
Definition titleContainsAny (kws : list string) (item : NewsItem) : Prop :=
  exists t kw, title item = Some (JStr t) /\ In kw kws /\ containsCI t kw.

(* ===================================================================== *)
(** * Sample surroundings *)
(* ===================================================================== *)

(** An engine that knows ASCII only: it lowers A-Z and leaves every other
    byte alone.  It serves the sample surroundings, whose texts are ASCII. *)
Definition asciiEngine : Engine.
Proof.
  refine {| String_toLowerCase := toLowerCase |}.
  - intros s _. reflexivity.
  - intros s H. destruct s; [reflexivity | discriminate H].
  - intros s. induction s as [| c s IH]; cbn; [reflexivity |].
    rewrite IH. f_equal.
    destruct c as [b0 b1 b2 b3 b4 b5 b6 b7].
    destruct b0, b1, b2, b3, b4, b5, b6, b7; reflexivity.
Defined.

(** The component right after mounting, before its first refresh. *)
Definition mounted : World :=
  {| ui := {| news := []; loading := true; error := None;
              selectedCategory := "general"; lastUpdated := 1699999990000 |};
     ticks := 0; trace := [] |}.

(** A clock that advances one second per reading. *)
Definition tickingClock (n : nat) : Z := 1700000000000 + 1000 * Z.of_nat n.

Definition unreachable (r : request) : http := NetworkFailure.

(** No credential configured at all. *)
Definition envNoKeys : Env :=
  {| REACT_APP_NEWS_API_KEY := None; REACT_APP_ALPHA_VANTAGE_API_KEY := None;
     network := unreachable; clock := tickingClock; engine := asciiEngine |}.

(** Only the secondary's credential is configured, and the network is down. *)
Definition envSecondaryDown : Env :=
  {| REACT_APP_NEWS_API_KEY := Some "news-key"; REACT_APP_ALPHA_VANTAGE_API_KEY := None;
     network := unreachable; clock := tickingClock; engine := asciiEngine |}.

Definition sampleFeedItem (t label : string) : json :=
  JObj [("title", JStr t); ("summary", JStr "s"); ("url", JStr "https://example.org/a");
        ("time_published", JStr "20231114T221320"); ("source", JStr "Wire");
        ("overall_sentiment_label", JStr label)].

(** Both credentials configured; the primary answers with a feed of two. *)
Definition envPrimaryUp : Env :=
  {| REACT_APP_NEWS_API_KEY := Some "news-key";
     REACT_APP_ALPHA_VANTAGE_API_KEY := Some "av-key";
     network := fun r =>
       match r with
       | AlphaVantageReq _ =>
           Response 200 (Some (JObj [("feed", JArr [sampleFeedItem "A" "Bullish";
                                                    sampleFeedItem "B" "Neutral"])]))
       | NewsApiReq _ _ _ => NetworkFailure
       end;
     clock := tickingClock; engine := asciiEngine |}.

Definition samplePrimaryItems : list NewsItem :=
  Eval vm_compute in
    match primaryOutcome envPrimaryUp with
    | Returned l => l
    | Threw _ => []
    end.

(** Both keys configured; the primary is unreachable and the secondary
    answers with a well-formed, empty list of articles. *)
Definition envSecondaryEmpty : Env :=
  {| REACT_APP_NEWS_API_KEY := Some "news-key";
     REACT_APP_ALPHA_VANTAGE_API_KEY := Some "av-key";
     network := fun r =>
       match r with
       | AlphaVantageReq _ => NetworkFailure
       | NewsApiReq _ _ _ =>
           Response 200 (Some (JObj [("status", JStr "ok"); ("totalResults", JNum 0);
                                     ("articles", JArr [])]))
       end;
     clock := tickingClock; engine := asciiEngine |}.

(** Both keys configured and the network down. *)
Definition envBothDown : Env :=
  {| REACT_APP_NEWS_API_KEY := Some "news-key";
     REACT_APP_ALPHA_VANTAGE_API_KEY := Some "av-key";
     network := unreachable; clock := tickingClock; engine := asciiEngine |}.

Definition sampleArticle : json :=
  JObj [("source", JObj [("id", JNull); ("name", JStr "Wire")]);
        ("title", JStr "Markets open higher"); ("url", JStr "https://example.org/b");
        ("publishedAt", JStr "2023-11-14T22:13:20Z")].

(** Only the secondary is configured, and upstream answers with [n] articles. *)
Definition envArticles (n : nat) : Env :=
  {| REACT_APP_NEWS_API_KEY := Some "news-key"; REACT_APP_ALPHA_VANTAGE_API_KEY := None;
     network := fun r =>
       match r with
       | AlphaVantageReq _ => NetworkFailure
       | NewsApiReq _ _ _ =>
           Response 200 (Some (JObj [("status", JStr "ok");
                                     ("articles", JArr (repeat sampleArticle n))]))
       end;
     clock := tickingClock; engine := asciiEngine |}.

(* ===================================================================== *)
(** * What the widget renders *)
(* ===================================================================== *)

(** [`${n}`] for an integer [n]. *)
Definition Number_toString (n : Z) : string := NilZero.string_of_int (Z.to_int n).

Section Rendering.

(** [new Date(s).getTime()], the engine's reading of a date string;
    [None] is [NaN], the time value of an invalid date. *)
Variable Date_parse : string -> option Z.

(** [formatDate], with [now] the time value of its [new Date()].  On an
    invalid date every comparison is false and the last branch prints
    [NaN]. *)
Definition formatDate (dateString : string) (now : Z) : string :=
  match Date_parse dateString with
  | None => "NaNd ago"
  | Some date =>
      let diffInHours := (now - date) / (1000 * 60 * 60) in
      if diffInHours <? 1 then "Just now"
      else if diffInHours <? 24 then Number_toString diffInHours ++ "h ago"
      else
        let diffInDays := diffInHours / 24 in
        Number_toString diffInDays ++ "d ago"
  end.

(** The header line: [Updated {formatDate(lastUpdated.toISOString())}]. *)
Definition updatedLabel (s : State) (now : Z) : string :=
  "Updated " ++ formatDate (toISOString (lastUpdated s)) now.

End Rendering.

Definition getSentimentColor (sentiment : option string) : string :=
  match sentiment with
  | Some s =>
      if String.eqb s "positive" then "text-green-400"
      else if String.eqb s "negative" then "text-red-400"
      else "text-gray-400"
  | None => "text-gray-400"
  end.

Definition getSentimentIcon (sentiment : option string) : string :=
  match sentiment with
  | Some s =>
      if String.eqb s "positive" then "↗️"
      else if String.eqb s "negative" then "↘️"
      else "➡️"
  | None => "➡️"
  end.

(** The sentiment badge of an article: [{item.sentiment && (...)}] renders
    the colour class, the icon and the sentiment text, or nothing. *)
Definition sentimentBadge (item : NewsItem) : option (string * string * string) :=
  match sentiment item with
  | Some s =>
      if nonEmptyString s
      then Some (getSentimentColor (Some s), getSentimentIcon (Some s), s)
      else None
  | None => None
  end.

(** [{news.length === 0 && !loading && (...)}] inside the branch rendered
    when [loading] is false: the "No news available for this category"
    notice. *)
Definition showsEmptyNotice (s : State) : bool :=
  negb (loading s) && ((length (news s) =? 0)%nat && negb (loading s)).

(* ===================================================================== *)
(** * Describing the provider clients *)
(* ===================================================================== *)

(** An entry of the feed the primary's callback gets through: not [null],
    and its sentiment label missing, [null] or a string. *)
Definition feedEntryOk (item : json) : bool :=
  match item with
  | JNull => false
  | JObj fields =>
      match lookup "overall_sentiment_label" fields with
      | None => true
      | Some JNull => true
      | Some (JStr _) => true
      | Some _ => false
      end
  | _ => true
  end.

(** An article the secondary's callback gets through: an object whose
    [source] is present and not [null]. *)
Definition articleOk (article : json) : bool :=
  match article with
  | JObj fields =>
      match lookup "source" fields with
      | None => false
      | Some JNull => false
      | Some _ => true
      end
  | _ => false
  end.

Definition throws {A : Type} (o : Outcome A) : bool :=
  match o with
  | Returned _ => false
  | Threw _ => true
  end.

(** The requests among the events of a trace, in order. *)
Fixpoint requests (es : list event) : list request :=
  match es with
  | [] => []
  | EFetch r :: rest => r :: requests rest
  | _ :: rest => requests rest
  end.

(** The chain gets as far as the secondary's guard and passes it. *)
Definition secondaryConsulted (env : Env) : bool :=
  newsConfigured env && (negb (avConfigured env) || throws (primaryOutcome env)).

(** [index_toString] read back. *)
Definition index_ofString (s : string) : option nat :=
  option_map Nat.of_uint (NilEmpty.uint_of_string s).

(** The date reader gets back the time value whose ISO string it is given,
    as the Date constructor is specified to. *)
Definition readsBack (Date_parse : string -> option Z) (t : Z) : Prop :=
  Date_parse (toISOString t) = Some t.

(* ===================================================================== *)
(** * More sample surroundings *)
(* ===================================================================== *)

(** Days since 1970-01-01 of a date of the proleptic Gregorian calendar. *)
Definition days_from_civil (y m d : Z) : Z :=
  let y' := if m <=? 2 then y - 1 else y in
  let era := y' / 400 in
  let yoe := y' mod 400 in
  let mp := if m <=? 2 then m + 9 else m - 3 in
  let doy := (153 * mp + 2) / 5 + d - 1 in
  let doe := yoe * 365 + yoe / 4 - yoe / 100 + doy in
  era * 146097 + doe - 719468.

Definition digitValue (c : ascii) : option Z :=
  let n := nat_of_ascii c in
  if (48 <=? n)%nat && (n <=? 57)%nat then Some (Z.of_nat (n - 48)) else None.

(** The number written by the first [width] characters, all digits, and
    the rest of the string. *)
Fixpoint readDigits (width : nat) (acc : Z) (s : string) : option (Z * string) :=
  match width with
  | O => Some (acc, s)
  | S w =>
      match s with
      | String c rest =>
          match digitValue c with
          | Some d => readDigits w (10 * acc + d) rest
          | None => None
          end
      | EmptyString => None
      end
  end.

Definition expect (c : ascii) (s : string) : option string :=
  match s with
  | String c' rest => if Ascii.eqb c c' then Some rest else None
  | EmptyString => None
  end.

Definition andThen {A B : Type} (o : option A) (k : A -> option B) : option B :=
  match o with
  | Some a => k a
  | None => None
  end.

(** A date reader that understands the strings [toISOString] writes for
    four-digit years, [YYYY-MM-DDTHH:mm:ss.sssZ], and nothing else. *)
Definition isoReader (s : string) : option Z :=
  andThen (readDigits 4 0 s) (fun '(y, s) =>
  andThen (expect "-" s) (fun s =>
  andThen (readDigits 2 0 s) (fun '(m, s) =>
  andThen (expect "-" s) (fun s =>
  andThen (readDigits 2 0 s) (fun '(d, s) =>
  andThen (expect "T" s) (fun s =>
  andThen (readDigits 2 0 s) (fun '(h, s) =>
  andThen (expect ":" s) (fun s =>
  andThen (readDigits 2 0 s) (fun '(mi, s) =>
  andThen (expect ":" s) (fun s =>
  andThen (readDigits 2 0 s) (fun '(sec, s) =>
  andThen (expect "." s) (fun s =>
  andThen (readDigits 3 0 s) (fun '(ms, s) =>
  if String.eqb s "Z"
     && (1 <=? m) && (m <=? 12) && (1 <=? d) && (d <=? 31)
     && (h <=? 23) && (mi <=? 59) && (sec <=? 59)
  then Some (days_from_civil y m d * 86400000
             + h * 3600000 + mi * 60000 + sec * 1000 + ms)
  else None))))))))))))).

(** Both keys configured; the primary is unreachable and the secondary
    answers with two articles. *)
Definition envSecondaryUp : Env :=
  {| REACT_APP_NEWS_API_KEY := Some "news-key";
     REACT_APP_ALPHA_VANTAGE_API_KEY := Some "av-key";
     network := fun r =>
       match r with
       | AlphaVantageReq _ => NetworkFailure
       | NewsApiReq _ _ _ =>
           Response 200 (Some (JObj [("status", JStr "ok");
                                     ("articles", JArr [sampleArticle; sampleArticle])]))
       end;
     clock := tickingClock; engine := asciiEngine |}.

(** Only the secondary configured; one of its three articles has no
    [source]. *)
Definition envBrokenArticle : Env :=
  {| REACT_APP_NEWS_API_KEY := Some "news-key"; REACT_APP_ALPHA_VANTAGE_API_KEY := None;
     network := fun r =>
       match r with
       | AlphaVantageReq _ => NetworkFailure
       | NewsApiReq _ _ _ =>
           Response 200 (Some (JObj [("status", JStr "ok");
                                     ("articles", JArr [sampleArticle;
                                                        JObj [("title", JStr "No source")];
                                                        sampleArticle])]))
       end;
     clock := tickingClock; engine := asciiEngine |}.

(** No credential, and a clock that stands still. *)
Definition envFrozen : Env :=
  {| REACT_APP_NEWS_API_KEY := None; REACT_APP_ALPHA_VANTAGE_API_KEY := None;
     network := unreachable; clock := fun _ => 1700000000000;
     engine := asciiEngine |}.

(* ===================================================================== *)
(** * The chat assistant *)
(* ===================================================================== *)

(** The component [AskAI]: its state, and [sendMessage]. *)
Module AskAI.

Inductive Role : Type := user | assistant.

Definition roleName (r : Role) : string :=
  match r with
  | user => "user"
  | assistant => "assistant"
  end.

(** [interface Message].  The content of an answer is whatever the
    upstream payload held at [choices[0].message.content]. *)
Record Message : Type := {
  id : string;
  content : value;
  role : Role;
  timestamp : Z
}.

(** The [useState] cells [sendMessage] touches. *)
Record State : Type := {
  messages : list Message;
  inputMessage : string;
  isLoading : bool
}.

(** One entry of the [messages] array of the request body. *)
Record Turn : Type := {
  turnRole : string;
  turnContent : value
}.

(** The POST to the completions endpoint, by its variable part and its
    fixed parameters ([temperature] in tenths). *)
Record ChatRequest : Type := {
  authorization : string;
  model : string;
  turns : list Turn;
  max_tokens : Z;
  temperatureTenths : Z
}.

Inductive event : Type :=
| EPost (r : ChatRequest)
| EError (msg : string).

(** The surroundings of a call: [process.env], the upstream service, the
    successive readings of the clock, and the message text the engine gives
    the errors it throws itself. *)
Record Env : Type := {
  REACT_APP_OPENAI_API_KEY : option string;
  network : ChatRequest -> http;
  clock : nat -> Z;
  engineText : exn -> string
}.

Record World : Type := {
  ui : State;
  ticks : nat;
  trace : list event
}.

Definition M (A : Type) : Type := Env -> World -> Outcome A * World.

#[local] Instance Monad_M : Monad M :=
  {| ret := fun _ a => fun _ w => (Returned a, w);
     bind := fun _ _ c k => fun env w =>
       match c env w with
       | (Returned a, w') => k a env w'
       | (Threw e, w') => (Threw e, w')
       end |}.

#[local] Instance MonadExc_M : MonadExc exn M :=
  {| raise := fun _ e => fun _ w => (Threw e, w);
     catch := fun _ c h => fun env w =>
       match c env w with
       | (Returned a, w') => (Returned a, w')
       | (Threw e, w') => h e env w'
       end |}.

Definition finally {A : Type} (c : M A) (f : M unit) : M A :=
  fun env w =>
    match c env w with
    | (r, w') =>
        match f env w' with
        | (Returned _, w'') => (r, w'')
        | (Threw e, w'') => (Threw e, w'')
        end
    end.

Definition liftO {A : Type} (o : Outcome A) : M A := fun _ w => (o, w).
Definition asks {A : Type} (f : Env -> A) : M A := fun env w => (Returned (f env), w).
Definition gets {A : Type} (f : State -> A) : M A := fun _ w => (Returned (f (ui w)), w).

Definition modify (f : State -> State) : M unit :=
  fun _ w => (Returned tt, {| ui := f (ui w); ticks := ticks w; trace := trace w |}).

Definition emit (e : event) : M unit :=
  fun _ w => (Returned tt, {| ui := ui w; ticks := ticks w; trace := trace w ++ [e] |}).

Definition Date_now : M Z :=
  fun env w => (Returned (clock env (ticks w)),
                {| ui := ui w; ticks := S (ticks w); trace := trace w |}).

(** [await fetch(url, {method: 'POST', ...})] and [await response.json()]. *)
Definition post_json (r : ChatRequest) : M json :=
  emit (EPost r) ;;
  net <- asks network ;;
  liftO (bodyOf (net r)).

(** [setMessages(prev => [...prev, m])] *)
Definition appendMessage (m : Message) : M unit :=
  modify (fun s => {| messages := messages s ++ [m]; inputMessage := inputMessage s;
                      isLoading := isLoading s |}).
Definition setInputMessage (v : string) : M unit :=
  modify (fun s => {| messages := messages s; inputMessage := v; isLoading := isLoading s |}).
Definition setIsLoading (v : bool) : M unit :=
  modify (fun s => {| messages := messages s; inputMessage := inputMessage s;
                      isLoading := v |}).

(** [const OPENAI_API_KEY = process.env.REACT_APP_OPENAI_API_KEY || ''] *)
Definition OPENAI_API_KEY (env : Env) : string :=
  match REACT_APP_OPENAI_API_KEY env with
  | Some k => k
  | None => ""
  end.

(** A character given by its UTF-8 bytes. *)
Definition bytes (l : list Z) : string :=
  string_of_list_ascii (map (fun b => ascii_of_N (Z.to_N b)) l).

(** The characters [trim] strips, WhiteSpace and LineTerminator of the
    language, as their UTF-8 bytes (a string is its UTF-8 bytes): TAB, LF, VT,
    FF, CR, SPACE, U+00A0, U+1680, U+2000 to U+200A, U+2028, U+2029, U+202F,
    U+205F, U+3000 and U+FEFF. *)
Definition whiteSpace : list string :=
  [bytes [9]; bytes [10]; bytes [11]; bytes [12]; bytes [13]; bytes [32];
   bytes [194; 160];
   bytes [225; 154; 128];
   bytes [226; 128; 128]; bytes [226; 128; 129]; bytes [226; 128; 130];
   bytes [226; 128; 131]; bytes [226; 128; 132]; bytes [226; 128; 133];
   bytes [226; 128; 134]; bytes [226; 128; 135]; bytes [226; 128; 136];
   bytes [226; 128; 137]; bytes [226; 128; 138];
   bytes [226; 128; 168]; bytes [226; 128; 169]; bytes [226; 128; 175];
   bytes [226; 129; 159];
   bytes [227; 128; 128];
   bytes [239; 187; 191]].

Definition isWhiteSpace (c : string) : bool := existsb (String.eqb c) whiteSpace.

(** [s.trimStart()]: a white-space character takes one, two or three
    bytes. *)
Fixpoint trimStart (s : string) : string :=
  match s with
  | EmptyString => EmptyString
  | String c1 r1 =>
      if isWhiteSpace (String c1 "") then trimStart r1
      else
        match r1 with
        | EmptyString => s
        | String c2 r2 =>
            if isWhiteSpace (String c1 (String c2 "")) then trimStart r2
            else
              match r2 with
              | EmptyString => s
              | String c3 r3 =>
                  if isWhiteSpace (String c1 (String c2 (String c3 ""))) then trimStart r3
                  else s
              end
        end
  end.

(** [s.trimEnd()]: the string is cut where all that is left is white
    space. *)
Fixpoint trimEnd (s : string) : string :=
  if String.eqb (trimStart s) "" then EmptyString
  else
    match s with
    | EmptyString => EmptyString
    | String c rest => String c (trimEnd rest)
    end.

Definition trim (s : string) : string := trimEnd (trimStart s).

(** A string made of white-space characters only. *)
Inductive Blank : string -> Prop :=
| Blank_empty : Blank ""
| Blank_more (c s : string) : In c whiteSpace -> Blank s -> Blank (c ++ s).

(** [String(v)], as [new Error(v)] applies it to its argument; inside an
    array [null] is written as nothing. *)
Fixpoint ToString (j : json) : string :=
  match j with
  | JNull => "null"
  | JBool b => if b then "true" else "false"
  | JNum n => Number_toString n
  | JStr s => s
  | JArr items =>
      (fix join (l : list json) : string :=
         match l with
         | [] => ""
         | x :: rest =>
             let e := match x with
                      | JNull => ""
                      | _ => ToString x
                      end in
             match rest with
             | [] => e
             | _ :: _ => e ++ "," ++ join rest
             end
         end) items
  | JObj _ => "[object Object]"
  end.

(** [error.message]: the argument of [new Error(...)] as a string (empty
    when it was [undefined]), or the engine's text. *)
Definition errorMessageOf (env : Env) (e : exn) : string :=
  match e with
  | Error None => ""
  | Error (Some v) => ToString v
  | _ => engineText env e
  end.

(** [v[0]] *)
Definition index0 (v : value) : Outcome value :=
  match v with
  | None => Threw TypeError
  | Some JNull => Threw TypeError
  | Some (JArr items) => Returned (hd_error items)
  | Some (JStr s) =>
      Returned (match s with
                | EmptyString => None
                | String c _ => Some (JStr (String c EmptyString))
                end)
  | Some (JObj fields) => Returned (lookup "0" fields)
  | Some _ => Returned None
  end.

(** [data.choices[0].message.content] *)
Definition firstChoiceContent (data : json) : Outcome value :=
  choices <- prop (Some data) "choices" ;;
  choice <- index0 choices ;;
  msg <- prop choice "message" ;;
  prop msg "content".

(** [l.slice(-n)] *)
Definition lastN {A : Type} (n : nat) (l : list A) : list A :=
  skipn (length l - n) l.

Definition systemPrompt : string :=
  "You are TechInvestor AI, a helpful financial education assistant for beginner investors. Your role is to:
              
              1. Provide clear, educational explanations about investing, stocks, and financial concepts
              2. Use simple language suitable for beginners
              3. Always emphasize that you're providing educational information, not financial advice
              4. Encourage users to do their own research and consult financial professionals
              5. Focus on long-term, responsible investing principles
              6. Avoid giving specific stock recommendations or predictions
              7. Be encouraging and supportive to help users build confidence in learning about investing
              
              Keep responses concise but informative (2-4 paragraphs max). Always end with a disclaimer that this is educational content, not financial advice.".

Definition notConfiguredReply : string :=
  "I'm sorry, but the AI service is not configured properly. Please make sure the OpenAI API key is set up correctly.".

Definition troubleReply : string :=
  "I'm sorry, I'm having trouble connecting right now. Please try again in a moment.".

(** The body of the request: the system prompt, the last ten messages of
    the history, the new message. *)
Definition chatRequest (key : string) (history : list Message) (message : string)
  : ChatRequest :=
  {| authorization := "Bearer " ++ key;
     model := "gpt-3.5-turbo";
     turns :=
       ({| turnRole := "system"; turnContent := Some (JStr systemPrompt) |}
        :: map (fun msg => {| turnRole := roleName (role msg); turnContent := content msg |})
               (lastN 10 history)
        ++ [{| turnRole := "user"; turnContent := Some (JStr message) |}])%list;
     max_tokens := 400;
     temperatureTenths := 7 |}.

(** [sendMessage].  [history] is the [messages] of the render the call
    closes over; everything the [try] block can throw is an [Error], so the
    "Something went wrong" branch of the handler is never taken. *)
Definition sendMessage (message : string) : M unit :=
  if String.eqb (trim message) "" then ret tt
  else
    history <- gets messages ;;
    now <- Date_now ;;
    stamp <- Date_now ;;
    appendMessage {| id := Number_toString now; content := Some (JStr message);
                     role := user; timestamp := stamp |} ;;
    setInputMessage "" ;;
    setIsLoading true ;;
    finally
      (catch
         (key <- asks OPENAI_API_KEY ;;
          if String.eqb key "" then
            raise (Error (Some (JStr "OpenAI API key not configured")))
          else
            data <- post_json (chatRequest key history message) ;;
            err <- liftO (prop (Some data) "error") ;;
            if truthy err then
              m <- liftO (prop err "message") ;;
              raise (Error m)
            else
              now <- Date_now ;;
              answer <- liftO (firstChoiceContent data) ;;
              stamp <- Date_now ;;
              appendMessage {| id := Number_toString (now + 1); content := answer;
                               role := assistant; timestamp := stamp |})
         (fun error =>
            emit (EError "Error sending message:") ;;
            now <- Date_now ;;
            text <- asks (fun env => errorMessageOf env error) ;;
            stamp <- Date_now ;;
            appendMessage
              {| id := Number_toString (now + 1);
                 content := Some (JStr (if includes text "API key"
                                        then notConfiguredReply else troubleReply));
                 role := assistant; timestamp := stamp |}))
      (setIsLoading false).

(** The greeting the component starts with. *)
Definition greeting (mountTime : Z) : Message :=
  {| id := "1";
     content := Some (JStr "Hello! I'm your AI investment assistant. I can help you understand stocks, explain financial concepts, and provide educational insights about investing. What would you like to know?");
     role := assistant; timestamp := mountTime |}.

(** What follows describes a run of [sendMessage] in closed form; it is
    not code of the component, and [sendMessage_run] proves it right. *)

(** The first half of the [try] block: the key check, the request and the
    error envelope of the reply. *)
Definition envelope (env : Env) (history : list Message) (message : string) : Outcome json :=
  if String.eqb (OPENAI_API_KEY env) "" then
    Threw (Error (Some (JStr "OpenAI API key not configured")))
  else
    data <- bodyOf (network env (chatRequest (OPENAI_API_KEY env) history message)) ;;
    err <- prop (Some data) "error" ;;
    if truthy err then
      m <- prop err "message" ;;
      Threw (Error m)
    else Returned data.

(** The outcome of the whole [try] block: the content of the answer, or
    what was thrown. *)
Definition attempt (env : Env) (history : list Message) (message : string) : Outcome value :=
  data <- envelope env history message ;;
  firstChoiceContent data.

(** The request of a call, if one is sent. *)
Definition posted (env : Env) (history : list Message) (message : string) : list event :=
  if String.eqb (OPENAI_API_KEY env) "" then []
  else [EPost (chatRequest (OPENAI_API_KEY env) history message)].

(** The text of the reply appended after a failed attempt. *)
Definition apology (env : Env) (e : exn) : string :=
  if includes (errorMessageOf env e) "API key" then notConfiguredReply else troubleReply.

Definition assistantMessage (env : Env) (n : nat) (c : value) : Message :=
  {| id := Number_toString (clock env n + 1); content := c; role := assistant;
     timestamp := clock env (S n) |}.

(** The world a call with a non-blank [message], started in [w], ends in. *)
Definition settled (env : Env) (w : World) (message : string) : World :=
  let history := messages (ui w) in
  let t := ticks w in
  let u := {| id := Number_toString (clock env t); content := Some (JStr message);
              role := user; timestamp := clock env (S t) |} in
  let done (reply : Message) (n : nat) (es : list event) :=
    {| ui := {| messages := (history ++ [u; reply])%list; inputMessage := "";
                isLoading := false |};
       ticks := n;
       trace := (trace w ++ posted env history message ++ es)%list |} in
  match envelope env history message with
  | Threw e =>
      done (assistantMessage env (2 + t) (Some (JStr (apology env e)))) (4 + t)%nat
           [EError "Error sending message:"]
  | Returned data =>
      match firstChoiceContent data with
      | Returned answer => done (assistantMessage env (2 + t) answer) (4 + t)%nat []
      | Threw e =>
          done (assistantMessage env (3 + t) (Some (JStr (apology env e)))) (5 + t)%nat
               [EError "Error sending message:"]
      end
  end.

(** Sample surroundings: a service that answers every request the same. *)
Definition sampleAnswer : json :=
  JObj [("choices", JArr [JObj [("message", JObj [("role", JStr "assistant");
                                                   ("content", JStr "A stock is a share.")])]])].

Definition v8Text (e : exn) : string :=
  match e with
  | FetchRejected => "Failed to fetch"
  | JsonRejected => "Unexpected end of JSON input"
  | _ => "Cannot read properties of undefined"
  end.

Definition envUp : Env :=
  {| REACT_APP_OPENAI_API_KEY := Some "sk-test";
     network := fun _ => Response 200 (Some sampleAnswer);
     clock := fun n => 1700000000000 + 1000 * Z.of_nat n;
     engineText := v8Text |}.

Definition envNoKey : Env :=
  {| REACT_APP_OPENAI_API_KEY := None;
     network := fun _ => Response 200 (Some sampleAnswer);
     clock := fun n => 1700000000000 + 1000 * Z.of_nat n;
     engineText := v8Text |}.

(** The service rejects the key. *)
Definition envBadKey : Env :=
  {| REACT_APP_OPENAI_API_KEY := Some "sk-wrong";
     network := fun _ =>
       Response 401 (Some (JObj [("error",
                                  JObj [("message", JStr "Incorrect API key provided: sk-wrong.");
                                        ("type", JStr "invalid_request_error")])]));
     clock := fun n => 1700000000000 + 1000 * Z.of_nat n;
     engineText := v8Text |}.

Definition fresh : World :=
  {| ui := {| messages := [greeting 1699999990000]; inputMessage := "What is a stock?";
              isLoading := false |};
     ticks := 0; trace := [] |}.

End AskAI.

(* ===================================================================== *)
(** * The built-ins on sample values *)
(* ===================================================================== *)

Example toISOString_epoch : toISOString 0 = "1970-01-01T00:00:00.000Z".
Proof. reflexivity. Qed.

Example toISOString_2023 : toISOString 1700000000000 = "2023-11-14T22:13:20.000Z".
Proof. vm_compute. reflexivity. Qed.

Example toISOString_leap : toISOString 1709210096789 = "2024-02-29T12:34:56.789Z".
Proof. vm_compute. reflexivity. Qed.

Example includes_gain : includes (toLowerCase "Renewable Energy Stocks Gain Momentum") "ai" = true.
Proof. vm_compute. reflexivity. Qed.

(* ===================================================================== *)
(** * Running the computations *)
(* ===================================================================== *)

Lemma fetchAlphaVantageNews_run (env : Env) (w : World) :
  fetchAlphaVantageNews env w =
  (primaryOutcome env,
   logged w (EFetch (AlphaVantageReq (ALPHA_VANTAGE_API_KEY env))
             :: onThrow (primaryOutcome env) [EError "Error fetching Alpha Vantage news:"])).
Proof.
  unfold fetchAlphaVantageNews, primaryOutcome, fetch_json, logged, liftO, asks, emit.
  cbn -[alphaVantageFeed bodyOf].
  destruct (bodyOf _) as [data | e]; cbn -[alphaVantageFeed].
  - destruct (alphaVantageFeed (engine env) data); cbn; rewrite <- ?app_assoc; reflexivity.
  - rewrite <- app_assoc; reflexivity.
Qed.

Lemma fetchNewsAPI_run (category : string) (env : Env) (w : World) :
  fetchNewsAPI category env w =
  (secondaryOutcome env category,
   logged w (EFetch (NewsApiReq (newsApiQuery category) 10 (NEWS_API_KEY env))
             :: onThrow (secondaryOutcome env category) [EError "Error fetching NewsAPI:"])).
Proof.
  unfold fetchNewsAPI, secondaryOutcome, fetch_json, logged, liftO, asks, emit.
  cbn -[newsApiArticles bodyOf newsApiQuery].
  destruct (bodyOf _) as [data | e]; cbn -[newsApiArticles newsApiQuery].
  - destruct (newsApiArticles category data); cbn -[newsApiQuery];
      rewrite <- ?app_assoc; reflexivity.
  - rewrite <- app_assoc; reflexivity.
Qed.

Lemma getMockNews_run (env : Env) (w : World) :
  getMockNews env w =
  (Returned (mockAt env (ticks w) (selectedCategory (ui w))),
   {| ui := ui w; ticks := (5 + ticks w)%nat; trace := trace w ++ [EMock] |}).
Proof. reflexivity. Qed.

Ltac run_providers :=
  repeat first
    [ rewrite fetchAlphaVantageNews_run
    | rewrite fetchNewsAPI_run
    | rewrite getMockNews_run ].

Ltac run_step :=
  run_providers;
  cbn -[fetchAlphaVantageNews fetchNewsAPI getMockNews nonEmptyString
        String.eqb mockAt newsApiQuery primaryOutcome secondaryOutcome].

Ltac run_done :=
  unfold logged;
  cbn -[nonEmptyString String.eqb mockAt newsApiQuery
        primaryOutcome secondaryOutcome];
  repeat rewrite <- app_assoc; reflexivity.

Lemma fetchNews_run (category : string) (env : Env) (w : World) :
  fetchNews category env w = (Returned tt, settled env w category).
Proof.
  unfold fetchNews, settled, chain, secondarySlot, finally.
  unfold avConfigured, newsConfigured, primaryRequest, secondaryRequest.
  cbn -[fetchAlphaVantageNews fetchNewsAPI getMockNews nonEmptyString
        String.eqb mockAt newsApiQuery primaryOutcome secondaryOutcome].
  destruct (nonEmptyString (ALPHA_VANTAGE_API_KEY env)
            && negb (String.eqb (ALPHA_VANTAGE_API_KEY env) "demo")).
  - run_step.
    destruct (primaryOutcome env) as [l | e]; run_step.
    + destruct l as [| x l]; run_step; run_done.
    + destruct (nonEmptyString (NEWS_API_KEY env)); run_step.
      * destruct (secondaryOutcome env category) as [l | e']; run_step.
        -- destruct l as [| x l]; run_step; run_done.
        -- run_done.
      * run_done.
  - destruct (nonEmptyString (NEWS_API_KEY env)); run_step.
    + destruct (secondaryOutcome env category) as [l | e']; run_step.
      * destruct l as [| x l]; run_step; run_done.
      * run_done.
    + run_done.
Qed.

Lemma fetchNews_trace (category : string) (env : Env) (w : World) :
  trace (snd (fetchNews category env w)) = (trace w ++ tailEvents env category)%list.
Proof.
  rewrite fetchNews_run. unfold settled, tailEvents; cbn [snd].
  destruct (chain env category) as [[[| x l] | e] es]; reflexivity.
Qed.

Lemma secondarySlot_no_primary (env : Env) (category : string) :
  ~ In (EFetch (primaryRequest env)) (snd (secondarySlot env category)).
Proof.
  unfold secondarySlot, secondaryRequest, primaryRequest.
  destruct (newsConfigured env); cbn [snd]; [| intros []].
  intros [H | H]; [discriminate H |].
  destruct (secondaryOutcome env category); cbn in H; [destruct H |].
  destruct H as [H | []]; discriminate H.
Qed.

(** The primary's request is sent only through its guard. *)
Lemma primary_fetched_configured (env : Env) (category : string) :
  In (EFetch (primaryRequest env)) (tailEvents env category) -> avConfigured env = true.
Proof.
  unfold tailEvents, chain.
  destruct (avConfigured env); [reflexivity |].
  intros H. exfalso.
  pose proof (secondarySlot_no_primary env category) as N.
  destruct (secondarySlot env category) as [[[| x l] | e] es]; cbn [snd] in N;
    try (apply in_app_or in H; destruct H as [H | H]);
    try (apply N; exact H);
    cbn in H; repeat (destruct H as [H | H]; try discriminate H); exact H.
Qed.

Lemma fetchNews_returns (category : string) (env : Env) (w : World) :
  fst (fetchNews category env w) = Returned tt.
Proof. rewrite fetchNews_run. reflexivity. Qed.

(** The three ways a refresh settles, read off the state. *)
Lemma terminal_cases (category : string) (env : Env) (w : World) :
  let w' := snd (fetchNews category env w) in
  let selected := selectedCategory (ui w) in
  (exists x l, fst (chain env category) = Returned (x :: l) /\
     ui w' = {| news := x :: l; loading := false; error := None;
                selectedCategory := selected; lastUpdated := clock env (ticks w) |} /\
     ticks w' = (1 + ticks w)%nat)
  \/ (fst (chain env category) = Returned [] /\
     ui w' = {| news := mockAt env (ticks w) selected; loading := false; error := None;
                selectedCategory := selected;
                lastUpdated := clock env (5 + ticks w) |} /\
     ticks w' = (6 + ticks w)%nat)
  \/ (exists e, fst (chain env category) = Threw e /\
     ui w' = {| news := mockAt env (ticks w) selected; loading := false;
                error := Some fixedMessage; selectedCategory := selected;
                lastUpdated := lastUpdated (ui w) |} /\
     ticks w' = (5 + ticks w)%nat).
Proof.
  rewrite fetchNews_run. unfold settled; cbn [snd].
  destruct (chain env category) as [[[| x l] | e] es]; cbn [fst].
  - right; left. repeat split.
  - left. exists x, l. repeat split.
  - right; right. exists e. repeat split.
Qed.

(* ===================================================================== *)
(** * Properties of a refresh *)
(* ===================================================================== *)

(** C3. Whatever the providers do (transport failure, any status, a body
    that is not JSON, an error envelope, a missing credential, an empty
    result), [fetchNews] returns normally and leaves the component in phase
    [Ready] or [DegradedReady]; nothing is thrown to the caller. *)
Theorem C3_refresh_always_settles (category : string) (env : Env) (w : World) :
  exists w' : World,
    fetchNews category env w = (Returned tt, w') /\
    (phase (ui w') = Ready \/ phase (ui w') = DegradedReady).
Proof.
  exists (snd (fetchNews category env w)). split.
  - rewrite fetchNews_run. reflexivity.
  - destruct (terminal_cases category env w) as [(x & l & _ & E & _) | [(_ & E & _) | (e & _ & E & _)]];
      rewrite E; unfold phase; cbn; auto.
Qed.

(** C7. When a refresh performs the primary provider's fetch and that fetch
    returns at least one item, the refresh ends in [Ready] with exactly those
    items, in their order, and the only thing it did besides was that one
    request: no request to the secondary, no call of [getMockNews]. *)
Theorem C7_primary_success_is_final
  (category : string) (env : Env) (w : World) (es : list event) (items : list NewsItem) :
  trace (snd (fetchNews category env w)) = (trace w ++ es)%list ->
  In (EFetch (primaryRequest env)) es ->
  primaryOutcome env = Returned items ->
  items <> [] ->
  fst (fetchNews category env w) = Returned tt /\
  phase (terminal category env w) = Ready /\
  news (terminal category env w) = items /\
  es = [EFetch (primaryRequest env)].
Proof.
  intros Htrace Hin Hprim Hne.
  rewrite fetchNews_trace in Htrace. apply app_inv_head in Htrace. subst es.
  pose proof (primary_fetched_configured _ _ Hin) as Hcfg.
  split; [apply fetchNews_returns |].
  unfold terminal. rewrite fetchNews_run. unfold settled, tailEvents, chain.
  rewrite Hcfg, Hprim. cbn [snd].
  destruct items as [| x l]; [contradiction Hne; reflexivity |].
  cbn. repeat split.
Qed.

Lemma C7_witness :
  primaryOutcome envPrimaryUp = Returned samplePrimaryItems /\
  samplePrimaryItems <> [] /\
  fst (fetchNews "technology" envPrimaryUp mounted) = Returned tt /\
  phase (terminal "technology" envPrimaryUp mounted) = Ready /\
  news (terminal "technology" envPrimaryUp mounted) = samplePrimaryItems /\
  trace (snd (fetchNews "technology" envPrimaryUp mounted))
  = [EFetch (AlphaVantageReq "av-key")].
Proof.
  assert (Hp : primaryOutcome envPrimaryUp = Returned samplePrimaryItems)
    by (vm_compute; reflexivity).
  assert (Hn : samplePrimaryItems <> []) by (vm_compute; discriminate).
  assert (Ht : trace (snd (fetchNews "technology" envPrimaryUp mounted))
               = (trace mounted ++ [EFetch (AlphaVantageReq "av-key")])%list)
    by (vm_compute; reflexivity).
  assert (Hi : In (EFetch (primaryRequest envPrimaryUp)) [EFetch (AlphaVantageReq "av-key")])
    by (left; vm_compute; reflexivity).
  destruct (@C7_primary_success_is_final "technology" envPrimaryUp mounted _ _ Ht Hi Hp Hn)
    as (H1 & H2 & H3 & _).
  split; [exact Hp |]. split; [exact Hn |]. split; [exact H1 |].
  split; [exact H2 |]. split; [exact H3 | exact Ht].
Defined.

(** C5 (as the code has it). A refresh that settles without the provider
    chain throwing -- no error message, phase [Ready] -- sets [lastUpdated]
    to the clock reading it takes last, right after storing the items; a
    refresh whose chain throws settles in [DegradedReady] with the fixed
    message and leaves [lastUpdated] as it was. *)
Theorem C5_lastUpdated_set_unless_chain_throws (category : string) (env : Env) (w : World) :
  let w' := snd (fetchNews category env w) in
  (phase (ui w') = Ready /\ error (ui w') = None /\
   lastUpdated (ui w') = clock env (pred (ticks w')))
  \/
  (phase (ui w') = DegradedReady /\ error (ui w') = Some fixedMessage /\
   lastUpdated (ui w') = lastUpdated (ui w)).
Proof.
  cbv zeta.
  destruct (terminal_cases category env w)
    as [(x & l & _ & E & T) | [(_ & E & T) | (e & _ & E & T)]];
    rewrite E, T; unfold phase; cbn; auto.
Qed.

(** C5, the claim as worded fails: with only the secondary configured and
    the network down, the refresh settles in [DegradedReady], yet
    [lastUpdated] still holds the mount time, which is no reading of the
    clock taken by this refresh (nor any reading at all). *)
Lemma C5_counterexample :
  phase (terminal "general" envSecondaryDown mounted) = DegradedReady /\
  lastUpdated (terminal "general" envSecondaryDown mounted) = lastUpdated (ui mounted) /\
  ~ (exists n : nat,
       lastUpdated (terminal "general" envSecondaryDown mounted) = clock envSecondaryDown n).
Proof.
  assert (E : lastUpdated (terminal "general" envSecondaryDown mounted) = 1699999990000)
    by (vm_compute; reflexivity).
  split; [vm_compute; reflexivity |].
  split; [vm_compute; reflexivity |].
  intros [n H]. rewrite E in H. cbn [clock envSecondaryDown] in H.
  unfold tickingClock in H. lia.
Qed.

(* ===================================================================== *)
(** * The fallback chain *)
(* ===================================================================== *)

Arguments primaryOutcome : simpl never.
Arguments secondaryOutcome : simpl never.
Arguments mockAt : simpl never.

Lemma chain_outcome (env : Env) (category : string) :
  fst (chain env category) =
  let second := if newsConfigured env then secondaryOutcome env category else Returned [] in
  if avConfigured env then
    match primaryOutcome env with
    | Returned l => Returned l
    | Threw _ => second
    end
  else second.
Proof.
  unfold chain, secondarySlot.
  destruct (avConfigured env), (primaryOutcome env), (newsConfigured env); reflexivity.
Qed.

(** C2 (as the code has it). When neither provider yields an item, the
    refresh shows the placeholder items for the category.  It settles in
    [DegradedReady] with the fixed message exactly when the chain reaches the
    secondary provider and the secondary's fetch throws; when the chain ends
    with an empty result without a throw (an empty feed from the primary, an
    empty list from the secondary, or the secondary not configured) it
    settles in [Ready] with no message. *)
Theorem C2_placeholder_when_nothing_fetched
  (category : string) (env : Env) (w : World) :
  selectedCategory (ui w) = category ->
  (avConfigured env = true -> failsOrEmpty (primaryOutcome env)) ->
  (newsConfigured env = true -> failsOrEmpty (secondaryOutcome env category)) ->
  news (terminal category env w) = mockAt env (ticks w) category /\
  ((secondaryThrowsInChain env category /\
    phase (terminal category env w) = DegradedReady /\
    error (terminal category env w) = Some fixedMessage)
   \/
   (~ secondaryThrowsInChain env category /\
    phase (terminal category env w) = Ready /\
    error (terminal category env w) = None)).
Proof.
  intros Hsel Hp Hs. unfold terminal, secondaryThrowsInChain.
  pose proof (chain_outcome env category) as Hc. cbv zeta in Hc.
  destruct (terminal_cases category env w)
    as [(x & l & C & _) | [(C & E & _) | (e & C & E & _)]]; cbv zeta in *.
  - (* a non-empty result contradicts the hypotheses *)
    exfalso. rewrite C in Hc.
    destruct (avConfigured env).
    + destruct (Hp eq_refl) as [P | [e P]]; rewrite P in Hc.
      * discriminate Hc.
      * destruct (newsConfigured env); [| discriminate Hc].
        destruct (Hs eq_refl) as [S | [e' S]]; rewrite S in Hc; discriminate Hc.
    + destruct (newsConfigured env); [| discriminate Hc].
      destruct (Hs eq_refl) as [S | [e' S]]; rewrite S in Hc; discriminate Hc.
  - rewrite E, Hsel. cbn. split; [reflexivity |]. right.
    split; [| split; reflexivity].
    intros (Hn & Hav & e & S). rewrite C, Hn, S in Hc.
    destruct (avConfigured env).
    + destruct (Hav eq_refl) as [e' P]. rewrite P in Hc. discriminate Hc.
    + discriminate Hc.
  - rewrite E, Hsel. cbn. split; [reflexivity |]. left.
    split; [| split; reflexivity].
    rewrite C in Hc.
    destruct (avConfigured env).
    + destruct (primaryOutcome env) as [l | e'] eqn:P.
      * destruct (Hp eq_refl) as [P' | [e' P']]; [subst; discriminate Hc | discriminate P'].
      * destruct (newsConfigured env); [| discriminate Hc].
        split; [reflexivity |]. split; [intros _; exists e'; reflexivity |].
        exists e. symmetry. exact Hc.
    + destruct (newsConfigured env); [| discriminate Hc].
      split; [reflexivity |]. split; [intros H; discriminate H |].
      exists e. symmetry. exact Hc.
Qed.

Lemma C2_witness :
  news (terminal "general" envBothDown mounted) = mockAt envBothDown 0 "general" /\
  phase (terminal "general" envBothDown mounted) = DegradedReady /\
  error (terminal "general" envBothDown mounted) = Some fixedMessage.
Proof.
  assert (Hsel : selectedCategory (ui mounted) = "general") by reflexivity.
  assert (Hp : avConfigured envBothDown = true -> failsOrEmpty (primaryOutcome envBothDown))
    by (intros _; right; exists FetchRejected; vm_compute; reflexivity).
  assert (Hs : newsConfigured envBothDown = true ->
               failsOrEmpty (secondaryOutcome envBothDown "general"))
    by (intros _; right; exists FetchRejected; vm_compute; reflexivity).
  destruct (@C2_placeholder_when_nothing_fetched "general" envBothDown mounted Hsel Hp Hs)
    as (Hnews & [(_ & Hph & Herr) | (_ & Hph & _)]).
  - split; [exact Hnews |]. split; [exact Hph | exact Herr].
  - vm_compute in Hph. discriminate Hph.
Defined.

(** C2, the claim as worded fails: the primary's fetch throws and the
    secondary returns an empty list, yet the refresh ends with no error
    message, in phase [Ready]. *)
Lemma C2_counterexample :
  failsOrEmpty (primaryOutcome envSecondaryEmpty) /\
  failsOrEmpty (secondaryOutcome envSecondaryEmpty "general") /\
  news (terminal "general" envSecondaryEmpty mounted) = mockAt envSecondaryEmpty 0 "general" /\
  error (terminal "general" envSecondaryEmpty mounted) = None /\
  ~ (phase (terminal "general" envSecondaryEmpty mounted) = DegradedReady /\
     error (terminal "general" envSecondaryEmpty mounted) = Some fixedMessage).
Proof.
  split; [right; exists FetchRejected; vm_compute; reflexivity |].
  split; [left; vm_compute; reflexivity |].
  split; [vm_compute; reflexivity |].
  split; [vm_compute; reflexivity |].
  intros [H _]. vm_compute in H. discriminate H.
Qed.

Lemma terminal_settledState (category : string) (env : Env) (w : World) :
  terminal category env w = settledState (fst (chain env category)) env w.
Proof.
  unfold terminal. rewrite fetchNews_run. unfold settled, settledState; cbn [snd].
  destruct (chain env category) as [[[| x l] | e] es]; reflexivity.
Qed.

Lemma secondarySlot_requests (env : Env) (category : string) (r : request) :
  In (EFetch r) (snd (secondarySlot env category)) ->
  newsConfigured env = true /\ r = secondaryRequest env category.
Proof.
  unfold secondarySlot.
  destruct (newsConfigured env); cbn [snd]; [| intros []].
  intros [H | H].
  - injection H as H. split; [reflexivity | symmetry; exact H].
  - destruct (secondaryOutcome env category); cbn in H; [destruct H |].
    destruct H as [H | []]; discriminate H.
Qed.

(** Every request a refresh sends went through the guard of its provider. *)
Lemma tailEvents_requests (env : Env) (category : string) (r : request) :
  In (EFetch r) (tailEvents env category) ->
  (avConfigured env = true /\ r = primaryRequest env) \/
  (newsConfigured env = true /\ r = secondaryRequest env category).
Proof.
  assert (T : forall (es tl : list event),
             (forall x, In x tl -> x <> EFetch r) ->
             In (EFetch r) (es ++ tl)%list -> In (EFetch r) es).
  { intros es tl Htl H. apply in_app_or in H. destruct H as [H | H]; [exact H |].
    exfalso. exact (Htl _ H eq_refl). }
  assert (Tl1 : forall x,
             In x [EWarn "Using mock news data - configure API keys for real data"; EMock] ->
             x <> EFetch r)
    by (intros x [<- | [<- | []]]; discriminate).
  assert (Tl2 : forall x, In x [EError "Error fetching news:"; EMock] -> x <> EFetch r)
    by (intros x [<- | [<- | []]]; discriminate).
  intros H.
  assert (Hc : In (EFetch r) (snd (chain env category))).
  { unfold tailEvents in H.
    destruct (chain env category) as [[[| x l] | e] es]; cbn [snd];
      [exact (T _ _ Tl1 H) | exact H | exact (T _ _ Tl2 H)]. }
  clear H. unfold chain in Hc.
  destruct (avConfigured env).
  - destruct (primaryOutcome env); cbn [snd] in Hc.
    + destruct Hc as [Hc | []]. injection Hc as <-. left. split; reflexivity.
    + destruct Hc as [Hc | [Hc | [Hc | Hc]]]; try discriminate Hc.
      * injection Hc as <-. left. split; reflexivity.
      * right. exact (secondarySlot_requests _ _ _ Hc).
  - right. exact (secondarySlot_requests _ _ _ Hc).
Qed.

(** C1 (as the code has it). A provider whose credential is absent is
    skipped by an explicit guard: the refresh sends it no request.  For the
    primary provider the skip ends in the same state as a runtime failure of
    its fetch.  For the secondary provider the skip ends in the state of an
    empty result -- placeholder items, no message -- whereas a runtime
    failure of its fetch, once the chain reaches it, ends with the fixed
    message. *)
Theorem C1_absent_credential_skips_provider
  (category : string) (env : Env) (w : World) (es : list event) :
  trace (snd (fetchNews category env w)) = (trace w ++ es)%list ->
  (avConfigured env = false ->
     (forall key, ~ In (EFetch (AlphaVantageReq key)) es) /\
     (forall k e,
        avConfigured (withAlphaKey k env) = true ->
        primaryOutcome (withAlphaKey k env) = Threw e ->
        terminal category (withAlphaKey k env) w = terminal category env w))
  /\
  (newsConfigured env = false ->
     (forall q n key, ~ In (EFetch (NewsApiReq q n key)) es) /\
     (forall k,
        newsConfigured (withNewsKey k env) = true ->
        secondaryOutcome (withNewsKey k env) category = Returned [] ->
        terminal category (withNewsKey k env) w = terminal category env w) /\
     (forall k e,
        newsConfigured (withNewsKey k env) = true ->
        secondaryOutcome (withNewsKey k env) category = Threw e ->
        (avConfigured env = true -> exists e', primaryOutcome env = Threw e') ->
        error (terminal category env w) = None /\
        error (terminal category (withNewsKey k env) w) = Some fixedMessage)).
Proof.
  intros Htrace. rewrite fetchNews_trace in Htrace. apply app_inv_head in Htrace. subst es.
  split.
  - intros Hav. split.
    + intros key H. apply tailEvents_requests in H.
      destruct H as [[H _] | [_ H]]; [congruence | discriminate H].
    + intros k e Hav' Hp.
      rewrite !terminal_settledState, !chain_outcome; cbv zeta.
      rewrite Hav, Hav', Hp. reflexivity.
  - intros Hn. split; [| split].
    + intros q n key H. apply tailEvents_requests in H.
      destruct H as [[_ H] | [H _]]; [discriminate H | congruence].
    + intros k Hn' Hs.
      rewrite !terminal_settledState, !chain_outcome; cbv zeta.
      rewrite Hn, Hn', Hs.
      change (avConfigured (withNewsKey k env)) with (avConfigured env).
      change (primaryOutcome (withNewsKey k env)) with (primaryOutcome env).
      destruct (avConfigured env); [destruct (primaryOutcome env) |]; reflexivity.
    + intros k e Hn' Hs Hreach.
      rewrite !terminal_settledState, !chain_outcome; cbv zeta.
      rewrite Hn, Hn', Hs.
      change (avConfigured (withNewsKey k env)) with (avConfigured env).
      change (primaryOutcome (withNewsKey k env)) with (primaryOutcome env).
      destruct (avConfigured env).
      * destruct (Hreach eq_refl) as [e' P]. rewrite P. split; reflexivity.
      * split; reflexivity.
Qed.

Lemma C1_witness :
  (forall key, ~ In (EFetch (AlphaVantageReq key))
                    [EWarn "Using mock news data - configure API keys for real data"; EMock]) /\
  terminal "general" (withAlphaKey "av-key" envNoKeys) mounted
  = terminal "general" envNoKeys mounted /\
  error (terminal "general" envNoKeys mounted) = None /\
  error (terminal "general" (withNewsKey "news-key" envNoKeys) mounted) = Some fixedMessage.
Proof.
  assert (Ht : trace (snd (fetchNews "general" envNoKeys mounted))
               = (trace mounted
                  ++ [EWarn "Using mock news data - configure API keys for real data"; EMock])%list)
    by (vm_compute; reflexivity).
  destruct (@C1_absent_credential_skips_provider "general" envNoKeys mounted _ Ht)
    as [Hprimary Hsecondary].
  destruct Hprimary as [Hskip Hsame]; [vm_compute; reflexivity |].
  destruct Hsecondary as (_ & _ & Hdiffer); [vm_compute; reflexivity |].
  split; [exact Hskip |].
  split.
  - apply (Hsame "av-key" FetchRejected); vm_compute; reflexivity.
  - apply (Hdiffer "news-key" FetchRejected).
    + vm_compute; reflexivity.
    + vm_compute; reflexivity.
    + intros H. vm_compute in H. discriminate H.
Defined.

(** C1, the claim as worded fails: with no credential configured the
    refresh sends no request at all, and it ends in a state different from
    the one reached when the secondary's credential is present and its fetch
    fails at runtime. *)
Lemma C1_counterexample :
  newsConfigured envNoKeys = false /\
  secondaryOutcome (withNewsKey "news-key" envNoKeys) "general" = Threw FetchRejected /\
  trace (snd (fetchNews "general" envNoKeys mounted))
  = [EWarn "Using mock news data - configure API keys for real data"; EMock] /\
  terminal "general" envNoKeys mounted
  <> terminal "general" (withNewsKey "news-key" envNoKeys) mounted.
Proof.
  split; [vm_compute; reflexivity |].
  split; [vm_compute; reflexivity |].
  split; [vm_compute; reflexivity |].
  intros H. apply (f_equal error) in H. vm_compute in H. discriminate H.
Qed.

(* ===================================================================== *)
(** * How many items a refresh can show *)
(* ===================================================================== *)

Lemma map_from_length {A B : Type} (f : A -> nat -> Outcome B) (l : list A) :
  forall (index : nat) (ys : list B),
    map_from f index l = Returned ys -> length ys = length l.
Proof.
  induction l as [| x rest IH]; intros index ys H; cbn in H.
  - injection H as <-. reflexivity.
  - destruct (f x index) as [y | e]; [| discriminate H].
    destruct (map_from f (S index) rest) as [ys' | e] eqn:E; [| discriminate H].
    injection H as <-. cbn. f_equal. exact (IH _ _ E).
Qed.

(** The primary client hands out the normalised first ten entries of the
    feed, in the feed's order, or nothing. *)
Lemma alphaVantageFeed_slice (eng : Engine) (data : json) (items : list NewsItem) :
  alphaVantageFeed eng data = Returned items ->
  items = [] \/
  exists feed, prop (Some data) "feed" = Returned (Some (JArr feed)) /\
               js_map (alphaVantageItem eng) (firstn 10 feed) = Returned items.
Proof.
  unfold alphaVantageFeed. cbn -[firstn js_map prop].
  destruct (prop (Some data) "Error Message") as [em | e]; [| discriminate].
  destruct (truthy em); [discriminate |].
  destruct (prop (Some data) "feed") as [[[| | | | feed |] |] | e];
    intros H; cbn -[firstn js_map] in H;
    try discriminate H;
    try (injection H as <-; left; reflexivity).
  right. exists feed. split; [reflexivity | exact H].
Qed.

Lemma primaryOutcome_length (env : Env) (items : list NewsItem) :
  primaryOutcome env = Returned items -> (length items <= 10)%nat.
Proof.
  unfold primaryOutcome. cbn -[alphaVantageFeed].
  destruct (bodyOf _) as [data | e]; [| discriminate].
  intros H. apply alphaVantageFeed_slice in H.
  destruct H as [-> | (feed & _ & H)]; [cbn; lia |].
  apply map_from_length in H. rewrite H. apply firstn_le_length.
Qed.

Lemma secondaryOutcome_length (env : Env) (category : string) (items : list NewsItem) :
  secondaryOutcome env category = Returned items ->
  length items = upstreamArticleCount env category.
Proof.
  unfold secondaryOutcome, upstreamArticleCount, secondaryRequest.
  cbn -[newsApiArticles newsApiQuery].
  destruct (bodyOf _) as [data | e]; [| discriminate].
  unfold newsApiArticles. cbn -[js_map].
  destruct data as [| b | n | s | l | fields]; cbn -[js_map]; try discriminate.
  destruct (strictEqString (lookup "status" fields) "error").
  - discriminate.
  - destruct (lookup "articles" fields) as [[| | | | arts |] |]; try discriminate.
    intros H. exact (map_from_length _ _ _ H).
Qed.

(** The secondary client hands out the normalisation of every article of
    the response, in the response's order. *)
Lemma newsApiArticles_all (category : string) (data : json) (items : list NewsItem) :
  newsApiArticles category data = Returned items ->
  exists arts, prop (Some data) "articles" = Returned (Some (JArr arts)) /\
               js_map (newsApiItem category) arts = Returned items.
Proof.
  unfold newsApiArticles. cbn -[js_map prop].
  destruct (prop (Some data) "status") as [st | e]; [| discriminate].
  destruct (strictEqString st "error").
  - destruct (prop (Some data) "message"); discriminate.
  - destruct (prop (Some data) "articles") as [[[| | | | arts |] |] | e];
      intros H; cbn -[js_map] in H; try discriminate H.
    exists arts. split; [reflexivity | exact H].
Qed.

Lemma filterBySelected_length (selected : string) (l : list NewsItem) :
  (length (filterBySelected selected l) <= length l)%nat.
Proof.
  unfold filterBySelected.
  destruct (String.eqb selected "technology"); [apply filter_length_le |].
  destruct (String.eqb selected "earnings"); [apply filter_length_le | lia].
Qed.

Lemma mockAt_length (env : Env) (n : nat) (selected : string) :
  (length (mockAt env n selected) <= 5)%nat.
Proof. unfold mockAt. apply (filterBySelected_length selected (mockNews _ _ _ _ _)). Qed.

(** C6 (as the code has it). The primary client slices the feed to its
    first ten entries; the secondary client asks upstream for a page of ten
    and keeps every article it is sent; the placeholder set has five entries.
    So a refresh shows at most ten items whenever the secondary's response
    carries at most ten articles. *)
Theorem C6_at_most_ten_items (category : string) (env : Env) (w : World) :
  (upstreamArticleCount env category <= 10)%nat ->
  (length (news (terminal category env w)) <= 10)%nat /\
  (forall items, primaryOutcome env = Returned items -> (length items <= 10)%nat) /\
  (forall eng data items,
     alphaVantageFeed eng data = Returned items ->
     items = [] \/
     exists feed, prop (Some data) "feed" = Returned (Some (JArr feed)) /\
                  js_map (alphaVantageItem eng) (firstn 10 feed) = Returned items) /\
  (forall items, secondaryOutcome env category = Returned items ->
                 length items = upstreamArticleCount env category) /\
  (forall data items,
     newsApiArticles category data = Returned items ->
     exists arts, prop (Some data) "articles" = Returned (Some (JArr arts)) /\
                  js_map (newsApiItem category) arts = Returned items).
Proof.
  intros Hup.
  split; [| split; [apply primaryOutcome_length |
            split; [apply alphaVantageFeed_slice |
            split; [apply secondaryOutcome_length | apply newsApiArticles_all]]]].
  rewrite terminal_settledState.
  pose proof (chain_outcome env category) as Hc. cbv zeta in Hc.
  pose proof (mockAt_length env (ticks w) (selectedCategory (ui w))) as Hm.
  unfold settledState.
  destruct (fst (chain env category)) as [[| x l] | e]; cbn [news]; try lia.
  assert (Hs : forall items, (if newsConfigured env then secondaryOutcome env category
                              else Returned []) = Returned items ->
                             (length items <= 10)%nat).
  { intros items H. destruct (newsConfigured env).
    - rewrite (secondaryOutcome_length _ _ H). exact Hup.
    - injection H as <-. cbn. lia. }
  destruct (avConfigured env).
  - destruct (primaryOutcome env) as [l' | e] eqn:P.
    + injection Hc as <-. exact (primaryOutcome_length env P).
    + apply Hs. symmetry. exact Hc.
  - apply Hs. symmetry. exact Hc.
Qed.

Lemma C6_witness :
  (upstreamArticleCount (envArticles 3) "technology" <= 10)%nat /\
  (length (news (terminal "technology" (envArticles 3) mounted)) <= 10)%nat.
Proof.
  assert (H : (upstreamArticleCount (envArticles 3) "technology" <= 10)%nat)
    by (vm_compute; lia).
  split; [exact H |].
  exact (proj1 (@C6_at_most_ten_items "technology" (envArticles 3) mounted H)).
Defined.

(** C6, the claim as worded fails: the secondary's result is not sliced,
    so eleven articles upstream are eleven items on display. *)
Lemma C6_counterexample :
  upstreamArticleCount (envArticles 11) "general" = 11%nat /\
  phase (terminal "general" (envArticles 11) mounted) = Ready /\
  length (news (terminal "general" (envArticles 11) mounted)) = 11%nat /\
  ~ (length (news (terminal "general" (envArticles 11) mounted)) <= 10)%nat.
Proof.
  assert (E : length (news (terminal "general" (envArticles 11) mounted)) = 11%nat)
    by (vm_compute; reflexivity).
  split; [vm_compute; reflexivity |].
  split; [vm_compute; reflexivity |].
  split; [exact E |].
  rewrite E. lia.
Qed.

(* ===================================================================== *)
(** * Normalisation of upstream items *)
(* ===================================================================== *)

Lemma toLowerCase_empty (s : string) : toLowerCase s = "" -> s = "".
Proof. destruct s; [reflexivity | discriminate]. Qed.

Lemma String_toLowerCase_eqb_empty (eng : Engine) (s : string) :
  String.eqb (String_toLowerCase eng s) "" = String.eqb s "".
Proof.
  destruct (String.eqb_spec (String_toLowerCase eng s) "") as [E | N];
    destruct (String.eqb_spec s "") as [E' | N']; try reflexivity.
  - apply String_toLowerCase_empty in E. contradiction.
  - subst s. contradiction N. rewrite String_toLowerCase_ascii; reflexivity.
Qed.

Lemma lookup_missing (k : string) (fields : list (string * json)) :
  (forall v, ~ In (k, v) fields) -> lookup k fields = None.
Proof.
  induction fields as [| [k' v'] rest IH]; intros H; cbn; [reflexivity |].
  destruct (String.eqb_spec k k') as [<- | _].
  - exfalso. apply (H v'). left. reflexivity.
  - apply IH. intros v Hin. apply (H v). right. exact Hin.
Qed.

(** C4 (as the code has it). For every item a provider client
    normalises, each field copied from upstream is the plain property read
    of the upstream entry, hence [undefined] when the entry lacks it: title,
    summary, url, time, source and image for the primary; title, description,
    url, time, image and the name of the [source] object for the secondary.
    The one exception is the primary's sentiment: a missing, [null] or empty
    label gives the explicit value ["neutral"], any other label its
    lower-case form.  Items of the secondary carry no sentiment at all. *)
Theorem C4_missing_fields :
  (forall (eng : Engine) (item : json) (index : nat) (it : NewsItem),
     alphaVantageItem eng item index = Returned it ->
     prop (Some item) "title" = Returned (title it) /\
     prop (Some item) "summary" = Returned (description it) /\
     prop (Some item) "url" = Returned (url it) /\
     prop (Some item) "time_published" = Returned (publishedAt it) /\
     prop (Some item) "source" = Returned (source it) /\
     prop (Some item) "banner_image" = Returned (imageUrl it) /\
     category it = None /\
     exists l,
       prop (Some item) "overall_sentiment_label" = Returned l /\
       sentiment it =
         Some (match l with
               | Some (JStr label) =>
                   if String.eqb label "" then "neutral" else String_toLowerCase eng label
               | _ => "neutral"
               end)) /\
  (forall (cat : string) (article : json) (index : nat) (it : NewsItem),
     newsApiItem cat article index = Returned it ->
     prop (Some article) "title" = Returned (title it) /\
     prop (Some article) "description" = Returned (description it) /\
     prop (Some article) "url" = Returned (url it) /\
     prop (Some article) "publishedAt" = Returned (publishedAt it) /\
     prop (Some article) "urlToImage" = Returned (imageUrl it) /\
     (exists src, prop (Some article) "source" = Returned src /\
                  prop src "name" = Returned (source it)) /\
     category it = Some cat /\
     sentiment it = None) /\
  (forall (fields : list (string * json)) (k : string),
     (forall v, ~ In (k, v) fields) ->
     prop (Some (JObj fields)) k = Returned None).
Proof.
  split; [| split].
  - intros eng item index it. unfold alphaVantageItem.
    destruct item as [| b | n | s | l | fields];
      cbn -[lookup index_toString String_toLowerCase]; try discriminate.
    1-4: intros H; injection H as <-; cbn;
         repeat (split; [reflexivity |]); exists None; split; reflexivity.
    destruct (lookup "overall_sentiment_label" fields) as [[| b | n | label | l | fs] |];
      cbn -[lookup index_toString String_toLowerCase]; try discriminate;
      intros H; injection H as <-; cbn -[lookup String_toLowerCase];
      repeat (split; [reflexivity |]);
      eexists; (split; [reflexivity |]); try reflexivity.
    rewrite String_toLowerCase_eqb_empty. reflexivity.
  - intros cat article index it. unfold newsApiItem.
    destruct article as [| b | n | s | l | fields];
      cbn -[lookup index_toString]; try discriminate.
    destruct (lookup "source" fields) as [[| b | n | s | l | fs] |] eqn:Src;
      cbn -[lookup index_toString]; try discriminate;
      intros H; injection H as <-; cbn -[lookup];
      repeat (split; [reflexivity |]);
      (split; [eexists; split; [reflexivity | reflexivity] |]);
      split; reflexivity.
  - intros fields k H. cbn. rewrite (lookup_missing k fields H). reflexivity.
Qed.

Lemma C4_witness :
  exists item,
    alphaVantageItem asciiEngine (JObj [("title", JStr "Fed holds rates")]) 0
    = Returned item /\
    title item = Some (JStr "Fed holds rates") /\
    description item = None /\
    imageUrl item = None /\
    sentiment item = Some "neutral".
Proof.
  destruct (alphaVantageItem asciiEngine (JObj [("title", JStr "Fed holds rates")]) 0)
    as [item | e] eqn:E; [| vm_compute in E; discriminate E].
  destruct (proj1 C4_missing_fields asciiEngine _ _ _ E)
    as (Ht & Hd & _ & _ & _ & Hi & _ & l & Hl & Hs).
  exists item. split; [reflexivity |].
  cbn in Ht, Hd, Hi, Hl.
  injection Ht as Ht. injection Hd as Hd. injection Hi as Hi. injection Hl as Hl.
  subst l. repeat (split; [congruence |]). exact Hs.
Defined.

(** C4, the claim as worded fails: an upstream item without a sentiment
    label is normalised to sentiment ["neutral"], the same value an item
    labelled "Neutral" gets, not to an absent sentiment. *)
Lemma C4_counterexample :
  lookup "overall_sentiment_label" [("title", JStr "Fed holds rates")] = None /\
  (exists item,
     alphaVantageItem asciiEngine (JObj [("title", JStr "Fed holds rates")]) 0
     = Returned item /\
     sentiment item = Some "neutral" /\ sentiment item <> None) /\
  (exists item',
     alphaVantageItem asciiEngine
       (JObj [("title", JStr "Fed holds rates");
              ("overall_sentiment_label", JStr "Neutral")]) 0 = Returned item' /\
     sentiment item' = Some "neutral").
Proof.
  split; [reflexivity |]. split.
  - eexists. split; [vm_compute; reflexivity |]. split; [reflexivity | discriminate].
  - eexists. split; [vm_compute; reflexivity |]. reflexivity.
Qed.

(** C10 (as the code has it). In the primary's normalisation an upstream
    sentiment label that is a string is passed through lower-cased by the
    engine, whatever it says, unless it is empty: the sentiment is a function
    of the label alone and is not checked against the declared values, so a
    label such as "Somewhat-Bullish" yields a sentiment outside positive /
    negative / neutral.  The empty label counts as no label and yields
    ["neutral"]; a label that is neither a string nor [null] makes the
    normalisation throw. *)
Theorem C10_sentiment_passthrough :
  (forall (eng : Engine) (fields : list (string * json)) (index : nat) (label : string),
     lookup "overall_sentiment_label" fields = Some (JStr label) ->
     exists item,
       alphaVantageItem eng (JObj fields) index = Returned item /\
       sentiment item =
         Some (if String.eqb label "" then "neutral" else String_toLowerCase eng label)) /\
  (forall (eng : Engine) (fields : list (string * json)) (index : nat) (v : json),
     lookup "overall_sentiment_label" fields = Some v ->
     v <> JNull -> (forall label, v <> JStr label) ->
     alphaVantageItem eng (JObj fields) index = Threw TypeError) /\
  (forall eng : Engine,
     exists item,
       alphaVantageItem eng (sampleFeedItem "A" "Somewhat-Bullish") 0 = Returned item /\
       sentiment item = Some "somewhat-bullish" /\
       ~ In "somewhat-bullish" declaredSentiments).
Proof.
  split; [| split].
  - intros eng fields index label Hl.
    unfold alphaVantageItem. cbn -[lookup index_toString String_toLowerCase]. rewrite Hl.
    cbn -[lookup index_toString String_toLowerCase].
    rewrite String_toLowerCase_eqb_empty.
    eexists. split; reflexivity.
  - intros eng fields index v Hl Hnull Hstr.
    unfold alphaVantageItem. cbn -[lookup index_toString String_toLowerCase]. rewrite Hl.
    destruct v as [| b | n | label | l | fs]; try reflexivity.
    + contradiction Hnull; reflexivity.
    + contradiction (Hstr label); reflexivity.
  - intros eng. unfold alphaVantageItem, sampleFeedItem.
    cbn -[index_toString String_toLowerCase].
    rewrite (String_toLowerCase_ascii eng "Somewhat-Bullish" eq_refl).
    eexists. split; [reflexivity |]. split; [reflexivity |].
    intros [H | [H | [H | []]]]; discriminate H.
Qed.

Lemma C10_witness :
  exists item,
    alphaVantageItem asciiEngine (JObj [("overall_sentiment_label", JStr "Bearish")]) 7
    = Returned item /\
    sentiment item = Some "bearish".
Proof.
  assert (Hl : lookup "overall_sentiment_label" [("overall_sentiment_label", JStr "Bearish")]
               = Some (JStr "Bearish")) by reflexivity.
  exact (proj1 C10_sentiment_passthrough asciiEngine _ 7%nat _ Hl).
Defined.

(** C10, the claim as worded fails: an upstream item whose sentiment label
    is the empty string does not get that label lower-cased (the empty
    string) as its sentiment, but ["neutral"]. *)
Lemma C10_counterexample :
  lookup "overall_sentiment_label" [("overall_sentiment_label", JStr "")]
  = Some (JStr "") /\
  forall eng : Engine,
    String_toLowerCase eng "" = "" /\
    exists item,
      alphaVantageItem eng (JObj [("overall_sentiment_label", JStr "")]) 0
      = Returned item /\
      sentiment item = Some "neutral" /\
      sentiment item <> Some (String_toLowerCase eng "").
Proof.
  split; [reflexivity |]. intros eng.
  assert (E : String_toLowerCase eng "" = "")
    by (rewrite String_toLowerCase_ascii; reflexivity).
  split; [exact E |].
  unfold alphaVantageItem. cbn -[index_toString String_toLowerCase].
  rewrite E. cbn -[index_toString].
  eexists. split; [reflexivity |]. split; [reflexivity |]. discriminate.
Qed.

(* ===================================================================== *)
(** * The placeholder dataset and its category filter *)
(* ===================================================================== *)

Lemma prefix_app (a s : string) :
  String.prefix a s = true <-> exists post, s = a ++ post.
Proof.
  revert s. induction a as [| c a IH]; intros s.
  - split; [intros _; exists s; reflexivity | intros _; destruct s; reflexivity].
  - destruct s as [| d s]; cbn.
    + split; [discriminate | intros [post H]; discriminate H].
    + destruct (Ascii.ascii_dec c d) as [<- | N].
      * rewrite IH. split; intros [post H]; exists post.
        -- rewrite H. reflexivity.
        -- injection H as H. exact H.
      * split; [discriminate | intros [post H]; congruence].
Qed.

(** [includes] finds exactly the substrings. *)
Lemma includes_substring (s sub : string) :
  includes s sub = true <-> exists pre post, s = pre ++ sub ++ post.
Proof.
  induction s as [| c s IH]; cbn [includes].
  - destruct (String.prefix sub "") eqn:P.
    + split; [intros _ | reflexivity].
      apply prefix_app in P. destruct P as [post P]. exists "", post. exact P.
    + split; [discriminate |].
      intros (pre & post & H). destruct pre; [| discriminate H]. cbn in H.
      assert (P' : String.prefix sub "" = true) by (apply prefix_app; exists post; exact H).
      congruence.
  - destruct (String.prefix sub (String c s)) eqn:P.
    + split; [intros _ | reflexivity].
      apply prefix_app in P. destruct P as [post P]. exists "", post. exact P.
    + rewrite IH. split.
      * intros (pre & post & H). exists (String c pre), post. cbn. rewrite H. reflexivity.
      * intros (pre & post & H). destruct pre as [| d pre].
        -- cbn in H.
           assert (P' : String.prefix sub (String c s) = true)
             by (apply prefix_app; exists post; exact H).
           congruence.
        -- cbn in H. injection H as _ H. exists pre, post. exact H.
Qed.

Lemma toLowerCase_app (a b : string) :
  toLowerCase (a ++ b) = toLowerCase a ++ toLowerCase b.
Proof. induction a as [| c a IH]; cbn; [reflexivity | rewrite IH; reflexivity]. Qed.

Lemma toLowerCase_split (t a b : string) :
  toLowerCase t = a ++ b ->
  exists a' b', t = a' ++ b' /\ toLowerCase a' = a /\ toLowerCase b' = b.
Proof.
  revert t. induction a as [| c a IH]; intros t H.
  - exists "", t. cbn in *. auto.
  - destruct t as [| d t]; [discriminate H |].
    cbn in H. injection H as Hc H.
    destruct (IH _ H) as (a' & b' & -> & Ha & Hb).
    exists (String d a'), b'. cbn. rewrite Hc, Ha. auto.
Qed.

Lemma includes_containsCI (t kw : string) :
  toLowerCase kw = kw ->
  (includes (toLowerCase t) kw = true <-> containsCI t kw).
Proof.
  intros Hkw. rewrite includes_substring. unfold containsCI. split.
  - intros (pre & post & H).
    apply toLowerCase_split in H. destruct H as (pre' & rest & -> & _ & H).
    apply toLowerCase_split in H. destruct H as (mid & post' & -> & Hm & _).
    exists pre', mid, post'. split; [reflexivity | congruence].
  - intros (pre & mid & post & -> & Hm).
    exists (toLowerCase pre), (toLowerCase post).
    rewrite !toLowerCase_app, Hm, Hkw. reflexivity.
Qed.

Lemma titleIncludes_containsCI (kw : string) (item : NewsItem) :
  toLowerCase kw = kw ->
  (titleIncludes kw item = true <->
   exists t, title item = Some (JStr t) /\ containsCI t kw).
Proof.
  intros Hkw. unfold titleIncludes.
  destruct (title item) as [[| b | n | t | l | fs] |];
    try (split; [discriminate | intros (t' & H & _); discriminate H]).
  rewrite (includes_containsCI t Hkw). split.
  - intros H. exists t. split; [reflexivity | exact H].
  - intros (t' & H & C). injection H as <-. exact C.
Qed.

Lemma isTechnology_spec (item : NewsItem) :
  isTechnology item = true <-> titleContainsAny ["tech"; "ai"; "crypto"] item.
Proof.
  unfold isTechnology, titleContainsAny.
  rewrite !orb_true_iff, !titleIncludes_containsCI by reflexivity. split.
  - intros [[(t & H & C) | (t & H & C)] | (t & H & C)].
    + exists t, "tech". cbn. auto.
    + exists t, "ai". cbn. auto.
    + exists t, "crypto". cbn. auto 6.
  - intros (t & kw & H & [<- | [<- | [<- | []]]] & C).
    + left; left. exists t. auto.
    + left; right. exists t. auto.
    + right. exists t. auto.
Qed.

Lemma isEarnings_spec (item : NewsItem) :
  isEarnings item = true <-> titleContainsAny ["earnings"; "quarterly"] item.
Proof.
  unfold isEarnings, titleContainsAny.
  rewrite !orb_true_iff, !titleIncludes_containsCI by reflexivity. split.
  - intros [(t & H & C) | (t & H & C)].
    + exists t, "earnings". cbn. auto.
    + exists t, "quarterly". cbn. auto.
  - intros (t & kw & H & [<- | [<- | []]] & C).
    + left. exists t. auto.
    + right. exists t. auto.
Qed.

(** C8. [getMockNews] always returns.  With the five entries it builds
    (in the order of the literal): under "technology" it returns exactly
    those whose title contains "tech", "ai" or "crypto", case ignored
    (entries 1, 3 and 5); under "earnings" exactly those whose title contains
    "earnings" or "quarterly" (entry 4); under "general" all five, unfiltered
    and in order. *)
Theorem C8_placeholder_filter (env : Env) (w : World) :
  let dataset :=
    mockNews (clock env (ticks w)) (clock env (1 + ticks w)) (clock env (2 + ticks w))
             (clock env (3 + ticks w)) (clock env (4 + ticks w)) in
  (forall c, exists items w', getMockNews env (withSelected c w) = (Returned items, w')) /\
  (exists items,
     fst (getMockNews env (withSelected "technology" w)) = Returned items /\
     map id items = ["1"; "3"; "5"] /\
     forall item, In item items <->
                  In item dataset /\ titleContainsAny ["tech"; "ai"; "crypto"] item) /\
  (exists items,
     fst (getMockNews env (withSelected "earnings" w)) = Returned items /\
     map id items = ["4"] /\
     forall item, In item items <->
                  In item dataset /\ titleContainsAny ["earnings"; "quarterly"] item) /\
  fst (getMockNews env (withSelected "general" w)) = Returned dataset /\
  map id dataset = ["1"; "2"; "3"; "4"; "5"].
Proof.
  cbv zeta. split; [| split; [| split; [| split]]].
  - intros c. rewrite getMockNews_run. eauto.
  - rewrite getMockNews_run. eexists. split; [reflexivity |].
    unfold mockAt. cbn [ui selectedCategory withSelected ticks].
    change (filterBySelected "technology") with (filter isTechnology).
    split; [vm_compute; reflexivity |].
    intros item. rewrite filter_In, isTechnology_spec. reflexivity.
  - rewrite getMockNews_run. eexists. split; [reflexivity |].
    unfold mockAt. cbn [ui selectedCategory withSelected ticks].
    change (filterBySelected "earnings") with (filter isEarnings).
    split; [vm_compute; reflexivity |].
    intros item. rewrite filter_In, isEarnings_spec. reflexivity.
  - rewrite getMockNews_run. reflexivity.
  - reflexivity.
Qed.

(* ===================================================================== *)
(** * Refreshing twice *)
(* ===================================================================== *)

(** The placeholder items depend on the clock through [publishedAt] only. *)
Lemma mockAt_withoutPublishedAt (env : Env) (n m : nat) (selected : string) :
  map withoutPublishedAt (mockAt env n selected)
  = map withoutPublishedAt (mockAt env m selected).
Proof.
  unfold mockAt, filterBySelected.
  destruct (String.eqb selected "technology"); [vm_compute; reflexivity |].
  destruct (String.eqb selected "earnings"); vm_compute; reflexivity.
Qed.

Lemma requestRefresh_fetchNews (env : Env) (w : World) :
  requestRefresh env w = fetchNews (selectedCategory (ui w)) env w.
Proof. reflexivity. Qed.

(** C9 (as the code has it). Two refreshes in a row, with the providers
    answering the same, end with the same error state and with item
    sequences that agree in order and in every field except possibly
    [publishedAt]: either the two sequences are identical (the items came
    from a provider), or both are the placeholder items, whose [publishedAt]
    is computed from the clock at each call. *)
Theorem C9_refresh_twice (env : Env) (w : World) :
  let w1 := snd (requestRefresh env w) in
  let w2 := snd (requestRefresh env w1) in
  map withoutPublishedAt (news (ui w1)) = map withoutPublishedAt (news (ui w2)) /\
  error (ui w1) = error (ui w2) /\
  (news (ui w1) = news (ui w2) \/
   (news (ui w1) = mockAt env (ticks w) (selectedCategory (ui w)) /\
    news (ui w2) = mockAt env (ticks w1) (selectedCategory (ui w)))).
Proof.
  cbv zeta. rewrite !requestRefresh_fetchNews.
  set (sel := selectedCategory (ui w)).
  remember (snd (fetchNews sel env w)) as w1 eqn:W1.
  assert (E1 : ui w1 = settledState (fst (chain env sel)) env w)
    by (subst w1; apply terminal_settledState).
  assert (Hsel : selectedCategory (ui w1) = sel).
  { rewrite E1. unfold settledState.
    destruct (fst (chain env sel)) as [[| x l] | e]; reflexivity. }
  rewrite Hsel.
  pose proof (terminal_settledState sel env w1) as E2. unfold terminal in E2.
  rewrite E2, E1. unfold settledState. rewrite Hsel. fold sel.
  destruct (fst (chain env sel)) as [[| x l] | e]; cbn [news error].
  - split; [apply mockAt_withoutPublishedAt |]. split; [reflexivity |]. right. split; reflexivity.
  - split; [reflexivity |]. split; [reflexivity |]. left. reflexivity.
  - split; [apply mockAt_withoutPublishedAt |]. split; [reflexivity |]. right. split; reflexivity.
Qed.

(** C9, the claim as worded fails: with no credential configured both
    refreshes show the placeholder items, and the second carries later
    [publishedAt] stamps than the first. *)
Lemma C9_counterexample :
  let w1 := snd (requestRefresh envNoKeys mounted) in
  let w2 := snd (requestRefresh envNoKeys w1) in
  map publishedAt (news (ui w1))
  = [Some (JStr "2023-11-14T21:13:20.000Z"); Some (JStr "2023-11-14T20:13:21.000Z");
     Some (JStr "2023-11-14T19:13:22.000Z"); Some (JStr "2023-11-14T18:13:23.000Z");
     Some (JStr "2023-11-14T17:13:24.000Z")] /\
  map publishedAt (news (ui w2))
  = [Some (JStr "2023-11-14T21:13:26.000Z"); Some (JStr "2023-11-14T20:13:27.000Z");
     Some (JStr "2023-11-14T19:13:28.000Z"); Some (JStr "2023-11-14T18:13:29.000Z");
     Some (JStr "2023-11-14T17:13:30.000Z")] /\
  news (ui w1) <> news (ui w2).
Proof.
  cbv zeta.
  split; [vm_compute; reflexivity |].
  split; [vm_compute; reflexivity |].
  intros H. apply (f_equal (map publishedAt)) in H. vm_compute in H. discriminate H.
Qed.


(* ===================================================================== *)
(** * Further properties of a refresh *)
(* ===================================================================== *)

Lemma nonEmptyString_true (s : string) : nonEmptyString s = true -> s <> "".
Proof.
  unfold nonEmptyString. intros H ->. discriminate H.
Qed.

Lemma avConfigured_key (env : Env) :
  avConfigured env = true ->
  ALPHA_VANTAGE_API_KEY env <> "" /\ ALPHA_VANTAGE_API_KEY env <> "demo".
Proof.
  unfold avConfigured. intros H. apply andb_true_iff in H. destruct H as [H1 H2].
  split; [exact (nonEmptyString_true H1) |].
  intros E. rewrite E in H2. discriminate H2.
Qed.

Lemma tailEvents_requests_exact (env : Env) (category : string) :
  requests (tailEvents env category) =
  ((if avConfigured env then [primaryRequest env] else [])
   ++ (if secondaryConsulted env then [secondaryRequest env category] else []))%list.
Proof.
  unfold tailEvents, chain, secondarySlot, secondaryConsulted.
  destruct (avConfigured env); cbn [negb orb andb].
  - destruct (primaryOutcome env) as [[| x l] | e]; cbn [throws];
      rewrite ?andb_false_r, ?andb_true_r; cbn [fst snd]; try reflexivity.
    destruct (newsConfigured env); [| reflexivity].
    destruct (secondaryOutcome env category) as [[| y l'] | e']; reflexivity.
  - rewrite andb_true_r.
    destruct (newsConfigured env); [| reflexivity].
    destruct (secondaryOutcome env category) as [[| y l'] | e']; reflexivity.
Qed.

(** X1. The requests of a refresh are exactly: the primary's request when
    its key passes the guard, then the secondary's request when its key is
    set and the primary was skipped or threw.  Each is sent at most once, the
    primary first; an empty result of the primary does not bring the
    secondary in.  The primary's request carries the configured key, which is
    then neither empty nor the placeholder "demo"; the secondary's request
    carries the configured key, which is then not empty (it is sent whatever
    else it says), and always asks for a page of ten with the query of the
    category. *)
Theorem fetchNews_requests
  (category : string) (env : Env) (w : World) (es : list event) :
  trace (snd (fetchNews category env w)) = (trace w ++ es)%list ->
  requests es =
    ((if avConfigured env then [primaryRequest env] else [])
     ++ (if secondaryConsulted env then [secondaryRequest env category] else []))%list /\
  (forall k, In (AlphaVantageReq k) (requests es) ->
             k = ALPHA_VANTAGE_API_KEY env /\ k <> "" /\ k <> "demo") /\
  (forall q n k, In (NewsApiReq q n k) (requests es) ->
                 q = newsApiQuery category /\ n = 10 /\
                 k = NEWS_API_KEY env /\ k <> "").
Proof.
  intros Htrace. rewrite fetchNews_trace in Htrace. apply app_inv_head in Htrace. subst es.
  rewrite tailEvents_requests_exact.
  split; [reflexivity |]. split.
  - intros k H. apply in_app_or in H. destruct H as [H | H].
    + destruct (avConfigured env) eqn:A; [| destruct H].
      destruct H as [H | []]. injection H as <-.
      split; [reflexivity | exact (avConfigured_key env A)].
    + destruct (secondaryConsulted env); [| destruct H].
      destruct H as [H | []]. discriminate H.
  - intros q n k H. apply in_app_or in H. destruct H as [H | H].
    + destruct (avConfigured env); [| destruct H].
      destruct H as [H | []]. discriminate H.
    + destruct (secondaryConsulted env) eqn:S; [| destruct H].
      destruct H as [H | []]. injection H as <- <- <-.
      repeat (split; [reflexivity |]).
      unfold secondaryConsulted in S. apply andb_true_iff in S.
      exact (nonEmptyString_true (proj1 S)).
Qed.

Lemma fetchNews_requests_witness :
  requests (trace (snd (fetchNews "earnings" envSecondaryEmpty mounted)))
  = [AlphaVantageReq "av-key";
     NewsApiReq "earnings report OR quarterly results OR financial results" 10 "news-key"].
Proof.
  assert (Ht : trace (snd (fetchNews "earnings" envSecondaryEmpty mounted))
               = (trace mounted ++ trace (snd (fetchNews "earnings" envSecondaryEmpty mounted)))%list)
    by reflexivity.
  rewrite (proj1 (@fetchNews_requests "earnings" envSecondaryEmpty mounted _ Ht)).
  vm_compute. reflexivity.
Defined.

Lemma map_from_Forall {A B : Type} (f : A -> nat -> Outcome B) (P : B -> Prop) :
  (forall x i y, f x i = Returned y -> P y) ->
  forall (l : list A) (index : nat) (ys : list B),
    map_from f index l = Returned ys -> Forall P ys.
Proof.
  intros Hf. induction l as [| x rest IH]; intros index ys H; cbn in H.
  - injection H as <-. constructor.
  - destruct (f x index) as [y | e] eqn:F; [| discriminate H].
    destruct (map_from f (S index) rest) as [ys' | e] eqn:E; [| discriminate H].
    injection H as <-. constructor; [exact (Hf _ _ _ F) | exact (IH _ _ E)].
Qed.

Lemma newsApiItem_fields (cat : string) (article : json) (index : nat) (item : NewsItem) :
  newsApiItem cat article index = Returned item ->
  category item = Some cat /\ sentiment item = None /\
  id item = index_toString index.
Proof.
  unfold newsApiItem. cbn -[index_toString].
  destruct article as [| b | n | s | l | fields]; cbn -[index_toString lookup];
    try discriminate.
  destruct (lookup "source" fields) as [[| b | n | s | l | fs] |];
    cbn -[index_toString lookup]; intros H; try discriminate H;
    injection H as <-; cbn; auto.
Qed.

Lemma secondaryOutcome_items (env : Env) (cat : string) (items : list NewsItem) :
  secondaryOutcome env cat = Returned items ->
  Forall (fun item => category item = Some cat /\ sentiment item = None) items.
Proof.
  unfold secondaryOutcome. cbn -[newsApiArticles newsApiQuery].
  destruct (bodyOf _) as [data | e]; [| discriminate].
  intros H. apply newsApiArticles_all in H. destruct H as (arts & _ & H).
  unfold js_map in H. eapply map_from_Forall; [| exact H].
  intros x i y F. apply newsApiItem_fields in F. tauto.
Qed.

(** X2. When the chain consults the secondary provider -- its key is set,
    and the primary was skipped or its fetch threw -- and the secondary
    returns at least one item, the refresh ends in [Ready] showing exactly the
    secondary's items, untouched: each still carries the requested category
    and no sentiment.  The error message is cleared, [lastUpdated] is the
    clock reading taken at the end, the selected category is unchanged and
    [getMockNews] is not called. *)
Theorem fetchNews_secondary_fallback
  (cat : string) (env : Env) (w : World) (items : list NewsItem) :
  secondaryConsulted env = true ->
  secondaryOutcome env cat = Returned items ->
  items <> [] ->
  fst (fetchNews cat env w) = Returned tt /\
  terminal cat env w =
    {| news := items; loading := false; error := None;
       selectedCategory := selectedCategory (ui w);
       lastUpdated := clock env (ticks w) |} /\
  phase (terminal cat env w) = Ready /\
  (exists es, trace (snd (fetchNews cat env w)) = (trace w ++ es)%list /\
              ~ In EMock es) /\
  Forall (fun item => category item = Some cat /\ sentiment item = None)
         (news (terminal cat env w)).
Proof.
  intros Hc Hs Hne.
  assert (E : terminal cat env w =
              {| news := items; loading := false; error := None;
                 selectedCategory := selectedCategory (ui w);
                 lastUpdated := clock env (ticks w) |}).
  { rewrite terminal_settledState, chain_outcome; cbv zeta.
    unfold secondaryConsulted in Hc. apply andb_true_iff in Hc. destruct Hc as [Hn Hp].
    rewrite Hn, Hs.
    destruct (avConfigured env); cbn in Hp.
    - destruct (primaryOutcome env); [discriminate Hp |].
      destruct items; [contradiction Hne; reflexivity | reflexivity].
    - destruct items; [contradiction Hne; reflexivity | reflexivity]. }
  split; [apply fetchNews_returns |].
  split; [exact E |].
  split; [rewrite E; reflexivity |].
  split.
  - exists (tailEvents env cat). split; [apply fetchNews_trace |].
    unfold tailEvents, chain, secondarySlot.
    unfold secondaryConsulted in Hc. apply andb_true_iff in Hc. destruct Hc as [Hn Hp].
    rewrite Hn, Hs. cbn [onThrow].
    destruct items as [| x l]; [contradiction Hne; reflexivity |].
    destruct (avConfigured env); cbn in Hp.
    + destruct (primaryOutcome env); [discriminate Hp |]. cbn.
      intros [H | [H | [H | [H | []]]]]; discriminate H.
    + cbn. intros [H | []]; discriminate H.
  - rewrite E. cbn [news]. exact (secondaryOutcome_items _ _ Hs).
Qed.

Lemma fetchNews_secondary_fallback_witness :
  phase (terminal "technology" envSecondaryUp mounted) = Ready /\
  length (news (terminal "technology" envSecondaryUp mounted)) = 2%nat /\
  Forall (fun item => category item = Some "technology" /\ sentiment item = None)
         (news (terminal "technology" envSecondaryUp mounted)).
Proof.
  assert (Hc : secondaryConsulted envSecondaryUp = true) by (vm_compute; reflexivity).
  assert (Hne : news (terminal "technology" envSecondaryUp mounted) <> [])
    by (vm_compute; discriminate).
  assert (Hs : secondaryOutcome envSecondaryUp "technology"
               = Returned (news (terminal "technology" envSecondaryUp mounted)))
    by (vm_compute; reflexivity).
  destruct (@fetchNews_secondary_fallback "technology" envSecondaryUp mounted _ Hc Hs Hne)
    as (_ & _ & Hph & _ & Hall).
  split; [exact Hph |]. split; [vm_compute; reflexivity | exact Hall].
Defined.

Lemma mockAt_nonempty (env : Env) (n : nat) (selected : string) :
  mockAt env n selected <> [].
Proof.
  unfold mockAt, filterBySelected.
  destruct (String.eqb selected "technology").
  - intros H. apply (f_equal (@length NewsItem)) in H. vm_compute in H. discriminate H.
  - destruct (String.eqb selected "earnings").
    + intros H. apply (f_equal (@length NewsItem)) in H. vm_compute in H. discriminate H.
    + discriminate.
Qed.

(** X3. However a refresh goes, and whatever category is selected, it
    leaves at least one item on display: the providers' items, or else
    placeholder items, of which every category keeps at least one.  So the
    "No news available for this category" notice is never rendered after a
    refresh. *)
Theorem fetchNews_never_empty (category : string) (env : Env) (w : World) :
  news (terminal category env w) <> [] /\
  showsEmptyNotice (terminal category env w) = false.
Proof.
  assert (H : news (terminal category env w) <> []).
  { rewrite terminal_settledState. unfold settledState.
    destruct (fst (chain env category)) as [[| x l] | e]; cbn [news];
      [apply mockAt_nonempty | discriminate | apply mockAt_nonempty]. }
  split; [exact H |].
  unfold showsEmptyNotice.
  destruct (news (terminal category env w)); [contradiction H; reflexivity |].
  cbn. destruct (loading (terminal category env w)); reflexivity.
Qed.

(** X4. A refresh does not look at what was on display: started from two
    states that agree on the selected category, on [lastUpdated] and on the
    clock, it ends in the same state, whatever items, error message and
    loading flag each of them held.  In particular no item of an earlier
    refresh survives the next one. *)
Theorem fetchNews_forgets_display (category : string) (env : Env) (w w' : World) :
  selectedCategory (ui w) = selectedCategory (ui w') ->
  lastUpdated (ui w) = lastUpdated (ui w') ->
  ticks w = ticks w' ->
  terminal category env w = terminal category env w'.
Proof.
  intros Hs Hl Ht. rewrite !terminal_settledState. unfold settledState.
  rewrite Hs, Hl, Ht. reflexivity.
Qed.

Lemma fetchNews_forgets_display_witness :
  terminal "general" envSecondaryUp
    {| ui := {| news := samplePrimaryItems; loading := false;
                error := Some fixedMessage; selectedCategory := "general";
                lastUpdated := 1699999990000 |};
       ticks := 0; trace := [EMock] |}
  = terminal "general" envSecondaryUp mounted.
Proof.
  apply fetchNews_forgets_display; reflexivity.
Defined.

Lemma mockAt_frozen (env : Env) (n m : nat) (selected : string) :
  (forall i j, clock env i = clock env j) ->
  mockAt env n selected = mockAt env m selected.
Proof.
  intros H. unfold mockAt.
  rewrite (H n m), (H (1 + n)%nat (1 + m)%nat), (H (2 + n)%nat (2 + m)%nat),
          (H (3 + n)%nat (3 + m)%nat), (H (4 + n)%nat (4 + m)%nat).
  reflexivity.
Qed.

(** X5. Refreshing is idempotent while the clock stands still: a second
    refresh right after the first, with the providers answering the same and
    every clock reading equal, leaves the whole state -- items, error
    message, [lastUpdated] -- as the first refresh left it. *)
Theorem requestRefresh_idempotent_frozen_clock (env : Env) (w : World) :
  (forall i j, clock env i = clock env j) ->
  ui (snd (requestRefresh env (snd (requestRefresh env w))))
  = ui (snd (requestRefresh env w)).
Proof.
  intros Hclock. rewrite !requestRefresh_fetchNews.
  set (sel := selectedCategory (ui w)).
  remember (snd (fetchNews sel env w)) as w1 eqn:W1.
  assert (E1 : ui w1 = settledState (fst (chain env sel)) env w)
    by (subst w1; apply terminal_settledState).
  assert (Hsel : selectedCategory (ui w1) = sel).
  { rewrite E1. unfold settledState.
    destruct (fst (chain env sel)) as [[| x l] | e]; reflexivity. }
  rewrite Hsel.
  pose proof (terminal_settledState sel env w1) as E2. unfold terminal in E2.
  rewrite E2. unfold settledState. rewrite Hsel.
  rewrite E1. unfold settledState. fold sel.
  destruct (fst (chain env sel)) as [[| x l] | e]; cbn [lastUpdated].
  - rewrite (mockAt_frozen env (ticks w1) (ticks w) sel Hclock).
    rewrite (Hclock (5 + ticks w1)%nat (5 + ticks w)%nat). reflexivity.
  - rewrite (Hclock (ticks w1) (ticks w)). reflexivity.
  - rewrite (mockAt_frozen env (ticks w1) (ticks w) sel Hclock). reflexivity.
Qed.

Lemma requestRefresh_idempotent_frozen_clock_witness :
  ui (snd (requestRefresh envFrozen (snd (requestRefresh envFrozen mounted))))
  = ui (snd (requestRefresh envFrozen mounted)).
Proof.
  apply requestRefresh_idempotent_frozen_clock. intros i j. reflexivity.
Defined.

(* ===================================================================== *)
(** * What the provider clients hand out *)
(* ===================================================================== *)

Lemma index_ofString_toString (n : nat) : index_ofString (index_toString n) = Some n.
Proof.
  unfold index_ofString, index_toString. rewrite NilEmpty.usu. cbn.
  rewrite Unsigned.of_to. reflexivity.
Qed.

Lemma index_toString_inj (n m : nat) : index_toString n = index_toString m -> n = m.
Proof.
  intros H. apply (f_equal index_ofString) in H.
  rewrite !index_ofString_toString in H. injection H as H. exact H.
Qed.

Lemma map_from_ids {A : Type} (f : A -> nat -> Outcome NewsItem) :
  (forall x i y, f x i = Returned y -> id y = index_toString i) ->
  forall (l : list A) (index : nat) (ys : list NewsItem),
    map_from f index l = Returned ys ->
    map id ys = map index_toString (seq index (length ys)).
Proof.
  intros Hf. induction l as [| x rest IH]; intros index ys H; cbn in H.
  - injection H as <-. reflexivity.
  - destruct (f x index) as [y | e] eqn:F; [| discriminate H].
    destruct (map_from f (S index) rest) as [ys' | e] eqn:E; [| discriminate H].
    injection H as <-. cbn. rewrite (Hf _ _ _ F), (IH _ _ E). reflexivity.
Qed.

Lemma lower_ascii_idempotent (c : ascii) : lower_ascii (lower_ascii c) = lower_ascii c.
Proof.
  destruct c as [b0 b1 b2 b3 b4 b5 b6 b7].
  destruct b0, b1, b2, b3, b4, b5, b6, b7; reflexivity.
Qed.

Lemma toLowerCase_idempotent (s : string) : toLowerCase (toLowerCase s) = toLowerCase s.
Proof.
  induction s as [| c s IH]; cbn; [reflexivity |].
  rewrite lower_ascii_idempotent, IH. reflexivity.
Qed.

Lemma sentimentLabel_result (eng : Engine) (label : value) (s : string) :
  sentimentLabel eng label = Returned s -> s <> "" /\ toLowerCase s = s.
Proof.
  unfold sentimentLabel.
  destruct label as [[| b | n | l | items | fields] |]; intros H;
    try discriminate H; injection H as <-;
    try (split; [discriminate | reflexivity]).
  destruct (String.eqb_spec (String_toLowerCase eng l) "") as [E | N].
  - split; [discriminate | reflexivity].
  - split; [exact N | apply String_toLowerCase_lowered].
Qed.

Lemma alphaVantageItem_fields
  (eng : Engine) (item : json) (index : nat) (it : NewsItem) :
  alphaVantageItem eng item index = Returned it ->
  id it = index_toString index /\ category it = None /\
  exists s, sentiment it = Some s /\ s <> "" /\ toLowerCase s = s.
Proof.
  unfold alphaVantageItem.
  destruct item as [| b | n | s | l | fields];
    cbn -[index_toString lookup sentimentLabel]; try discriminate.
  all: match goal with
       | |- context [sentimentLabel ?e ?l] =>
           destruct (sentimentLabel e l) as [sent |] eqn:S; [| discriminate]
       end.
  all: intros H; injection H as <-; cbn -[index_toString];
    split; [reflexivity |]; split; [reflexivity |];
    exists sent; split; [reflexivity | exact (sentimentLabel_result _ _ S)].
Qed.

Lemma primaryOutcome_feed (env : Env) (items : list NewsItem) :
  primaryOutcome env = Returned items ->
  exists feed, js_map (alphaVantageItem (engine env)) feed = Returned items.
Proof.
  unfold primaryOutcome. cbn -[alphaVantageFeed].
  destruct (bodyOf _) as [data | e]; [| discriminate].
  intros H. apply alphaVantageFeed_slice in H.
  destruct H as [-> | (feed & _ & H)].
  - exists []. reflexivity.
  - exists (firstn 10 feed). exact H.
Qed.

Lemma secondaryOutcome_feed (env : Env) (category : string) (items : list NewsItem) :
  secondaryOutcome env category = Returned items ->
  exists arts, js_map (newsApiItem category) arts = Returned items.
Proof.
  unfold secondaryOutcome. cbn -[newsApiArticles newsApiQuery].
  destruct (bodyOf _) as [data | e]; [| discriminate].
  intros H. apply newsApiArticles_all in H. destruct H as (arts & _ & H).
  exists arts. exact H.
Qed.

Lemma NoDup_map_injective {A B : Type} (f : A -> B) (l : list A) :
  (forall x y, f x = f y -> x = y) -> NoDup l -> NoDup (map f l).
Proof.
  intros Hf. induction 1 as [| x l Hx _ IH]; cbn; constructor; [| exact IH].
  intros H. apply in_map_iff in H. destruct H as (y & E & Hy).
  apply Hf in E. subst y. contradiction.
Qed.

(** X6. Whichever provider the items come from, their ids are the decimal
    positions 0, 1, 2, ... in order: pairwise distinct (they are the keys of
    the rendered list), and each reads back as the position of its item. *)
Theorem provider_ids (env : Env) (category : string) (items : list NewsItem) :
  primaryOutcome env = Returned items \/ secondaryOutcome env category = Returned items ->
  map id items = map index_toString (seq 0 (length items)) /\
  NoDup (map id items) /\
  map index_ofString (map id items) = map Some (seq 0 (length items)).
Proof.
  intros H.
  assert (E : map id items = map index_toString (seq 0 (length items))).
  { destruct H as [H | H].
    - apply primaryOutcome_feed in H. destruct H as [feed H]. unfold js_map in H.
      eapply map_from_ids; [| exact H].
      intros x i y F. exact (proj1 (alphaVantageItem_fields _ _ _ F)).
    - apply secondaryOutcome_feed in H. destruct H as [arts H]. unfold js_map in H.
      eapply map_from_ids; [| exact H].
      intros x i y F. apply newsApiItem_fields in F. tauto. }
  split; [exact E |]. rewrite E. split.
  - apply NoDup_map_injective; [intros n m; apply index_toString_inj | apply seq_NoDup].
  - rewrite map_map. apply map_ext. intros n. apply index_ofString_toString.
Qed.

Lemma provider_ids_witness :
  map id samplePrimaryItems = ["0"; "1"] /\ NoDup (map id samplePrimaryItems).
Proof.
  assert (H : primaryOutcome envPrimaryUp = Returned samplePrimaryItems
              \/ secondaryOutcome envPrimaryUp "general" = Returned samplePrimaryItems)
    by (left; vm_compute; reflexivity).
  destruct (@provider_ids envPrimaryUp "general" samplePrimaryItems H) as (E & N & _).
  split; [rewrite E; vm_compute; reflexivity | exact N].
Defined.

(** X7. Every item of a successful primary fetch has no category and a
    sentiment that is a non-empty, lower-case string, so its sentiment badge
    is always rendered; every item of a successful secondary fetch has no
    sentiment, so its badge is never rendered. *)
Theorem provider_sentiment_badges (env : Env) (cat : string) :
  (forall items,
     primaryOutcome env = Returned items ->
     Forall (fun item =>
               category item = None /\
               exists s, sentiment item = Some s /\ s <> "" /\ toLowerCase s = s /\
                         sentimentBadge item
                         = Some (getSentimentColor (Some s), getSentimentIcon (Some s), s))
            items) /\
  (forall items,
     secondaryOutcome env cat = Returned items ->
     Forall (fun item => sentiment item = None /\ sentimentBadge item = None) items).
Proof.
  split; intros items H.
  - apply primaryOutcome_feed in H. destruct H as [feed H]. unfold js_map in H.
    eapply map_from_Forall; [| exact H].
    intros x i y F. apply alphaVantageItem_fields in F.
    destruct F as (_ & Hc & s & Hs & Hne & Hl).
    split; [exact Hc |]. exists s. repeat (split; [assumption |]).
    unfold sentimentBadge, nonEmptyString. rewrite Hs.
    destruct (String.eqb_spec s ""); [contradiction | reflexivity].
  - apply secondaryOutcome_items in H.
    eapply Forall_impl; [| exact H].
    intros item [_ Hs]. split; [exact Hs |]. unfold sentimentBadge. rewrite Hs. reflexivity.
Qed.

Lemma provider_sentiment_badges_witness :
  Forall (fun item => exists s, sentiment item = Some s /\ s <> "") samplePrimaryItems.
Proof.
  assert (H : primaryOutcome envPrimaryUp = Returned samplePrimaryItems)
    by (vm_compute; reflexivity).
  pose proof (proj1 (provider_sentiment_badges envPrimaryUp "general") _ H) as F.
  eapply Forall_impl; [| exact F].
  intros item (_ & s & Hs & Hne & _). exists s. split; assumption.
Defined.

(** X8. The badge of a primary item follows the upstream label, a
    non-empty string, as the engine lower-cases it: green with the rising
    arrow when the lowered label is "positive", red with the falling arrow
    when it is "negative", and grey with the flat arrow for every other label
    -- "Bullish" and "Bearish" included -- captioned with the lowered
    label. *)
Theorem sentiment_badge_from_label
  (eng : Engine) (fields : list (string * json)) (index : nat) (label : string) :
  lookup "overall_sentiment_label" fields = Some (JStr label) ->
  label <> "" ->
  exists item,
    alphaVantageItem eng (JObj fields) index = Returned item /\
    sentimentBadge item =
      Some (if String.eqb (String_toLowerCase eng label) "positive"
            then ("text-green-400", "↗️", "positive")
            else if String.eqb (String_toLowerCase eng label) "negative"
            then ("text-red-400", "↘️", "negative")
            else ("text-gray-400", "➡️", String_toLowerCase eng label)).
Proof.
  intros Hl Hne.
  assert (N : String_toLowerCase eng label <> "")
    by (intros E; apply String_toLowerCase_empty in E; contradiction).
  unfold alphaVantageItem. cbn -[lookup index_toString String_toLowerCase]. rewrite Hl.
  cbn -[lookup index_toString String_toLowerCase].
  destruct (String.eqb_spec (String_toLowerCase eng label) "") as [E | _];
    [contradiction |].
  eexists. split; [reflexivity |].
  unfold sentimentBadge, nonEmptyString, getSentimentColor, getSentimentIcon.
  cbn [sentiment].
  destruct (String.eqb_spec (String_toLowerCase eng label) "") as [E | _];
    [contradiction |].
  cbn [negb].
  destruct (String.eqb_spec (String_toLowerCase eng label) "positive") as [-> | _];
    [reflexivity |].
  destruct (String.eqb_spec (String_toLowerCase eng label) "negative") as [-> | _];
    reflexivity.
Qed.

Lemma sentiment_badge_from_label_witness :
  exists item,
    alphaVantageItem asciiEngine (sampleFeedItem "A" "Bullish") 0 = Returned item /\
    sentimentBadge item = Some ("text-gray-400", "➡️", "bullish").
Proof.
  assert (Hl : lookup "overall_sentiment_label"
                 [("title", JStr "A"); ("summary", JStr "s");
                  ("url", JStr "https://example.org/a");
                  ("time_published", JStr "20231114T221320"); ("source", JStr "Wire");
                  ("overall_sentiment_label", JStr "Bullish")]
               = Some (JStr "Bullish")) by reflexivity.
  assert (Hne : "Bullish" <> "") by discriminate.
  exact (sentiment_badge_from_label asciiEngine _ 0%nat Hl Hne).
Defined.

(* ===================================================================== *)
(** * When a provider client succeeds *)
(* ===================================================================== *)

Lemma alphaVantageItem_ok (eng : Engine) (item : json) (index : nat) :
  if feedEntryOk item
  then exists it, alphaVantageItem eng item index = Returned it
  else alphaVantageItem eng item index = Threw TypeError.
Proof.
  unfold alphaVantageItem, feedEntryOk.
  destruct item as [| b | n | s | l | fields];
    cbn -[index_toString lookup]; try (eexists; reflexivity); try reflexivity.
  destruct (lookup "overall_sentiment_label" fields) as [[| b | n | s | l | fs] |];
    cbn -[index_toString lookup]; try (eexists; reflexivity); reflexivity.
Qed.

Lemma newsApiItem_ok (category : string) (article : json) (index : nat) :
  if articleOk article
  then exists it, newsApiItem category article index = Returned it
  else newsApiItem category article index = Threw TypeError.
Proof.
  unfold newsApiItem, articleOk.
  destruct article as [| b | n | s | l | fields];
    cbn -[index_toString lookup]; try reflexivity.
  destruct (lookup "source" fields) as [[| b | n | s | l | fs] |];
    cbn -[index_toString lookup]; try (eexists; reflexivity); reflexivity.
Qed.

(** A map whose callback throws [TypeError] on the entries that are not
    [ok], and returns on the others. *)
Lemma map_from_ok {A B : Type} (f : A -> nat -> Outcome B) (ok : A -> bool) :
  (forall x i, if ok x then exists y, f x i = Returned y else f x i = Threw TypeError) ->
  forall (l : list A) (index : nat),
    if forallb ok l
    then exists ys, map_from f index l = Returned ys /\ length ys = length l
    else map_from f index l = Threw TypeError.
Proof.
  intros Hf. induction l as [| x rest IH]; intros index; cbn.
  - exists []. split; reflexivity.
  - pose proof (Hf x index) as Hx. destruct (ok x); cbn.
    + destruct Hx as [y Hy]. rewrite Hy.
      pose proof (IH (S index)) as Hr. destruct (forallb ok rest).
      * destruct Hr as (ys & Hys & Hlen). rewrite Hys.
        exists (y :: ys). split; [reflexivity | cbn; rewrite Hlen; reflexivity].
      * rewrite Hr. reflexivity.
    + rewrite Hx. reflexivity.
Qed.

(** X9. Given a body without a truthy "Error Message" whose [feed] is an
    array, the primary client succeeds exactly when each of the first ten
    entries is usable (not [null], its sentiment label missing, [null] or a
    string), and then it returns min(10, n) items; one unusable entry among
    the first ten makes the whole fetch throw a [TypeError], with no partial
    result.  Entries after the tenth are never looked at. *)
Theorem alphaVantageFeed_succeeds_iff
  (eng : Engine) (fields : list (string * json)) (feed : list json) :
  truthy (lookup "Error Message" fields) = false ->
  lookup "feed" fields = Some (JArr feed) ->
  if forallb feedEntryOk (firstn 10 feed)
  then exists items, alphaVantageFeed eng (JObj fields) = Returned items /\
                     length items = Nat.min 10 (length feed)
  else alphaVantageFeed eng (JObj fields) = Threw TypeError.
Proof.
  intros Hem Hfeed. unfold alphaVantageFeed. cbn -[firstn js_map lookup truthy].
  rewrite Hem, Hfeed. unfold js_map.
  pose proof (map_from_ok (alphaVantageItem eng) feedEntryOk (alphaVantageItem_ok eng)
                (firstn 10 feed) 0) as H.
  destruct (forallb feedEntryOk (firstn 10 feed)).
  - destruct H as (ys & Hys & Hlen). exists ys. split; [exact Hys |].
    rewrite Hlen. apply length_firstn.
  - exact H.
Qed.

Lemma alphaVantageFeed_succeeds_iff_witness :
  alphaVantageFeed asciiEngine
    (JObj [("feed", JArr (repeat (sampleFeedItem "A" "Bullish") 10 ++ [JNull])%list)])
  <> Threw TypeError /\
  alphaVantageFeed asciiEngine
    (JObj [("feed", JArr (sampleFeedItem "A" "Bullish" :: JNull :: nil))])
  = Threw TypeError.
Proof.
  split.
  - set (feed := (repeat (sampleFeedItem "A" "Bullish") 10 ++ [JNull])%list).
    pose proof (@alphaVantageFeed_succeeds_iff asciiEngine [("feed", JArr feed)] feed
                  eq_refl eq_refl) as H.
    assert (Hok : forallb feedEntryOk (firstn 10 feed) = true) by (vm_compute; reflexivity).
    rewrite Hok in H. destruct H as (items & H & _). rewrite H. discriminate.
  - exact (@alphaVantageFeed_succeeds_iff asciiEngine
             [("feed", JArr (sampleFeedItem "A" "Bullish" :: JNull :: nil))]
             (sampleFeedItem "A" "Bullish" :: JNull :: nil) eq_refl eq_refl).
Defined.

(** X10. Given a body whose status is not "error" and whose [articles] is
    an array, the secondary client succeeds exactly when every article is an
    object with a [source] that is present and not [null], and then it returns
    one item per article; a single article without a source makes the whole
    fetch throw a [TypeError]. *)
Theorem newsApiArticles_succeeds_iff
  (category : string) (fields : list (string * json)) (arts : list json) :
  strictEqString (lookup "status" fields) "error" = false ->
  lookup "articles" fields = Some (JArr arts) ->
  if forallb articleOk arts
  then exists items, newsApiArticles category (JObj fields) = Returned items /\
                     length items = length arts
  else newsApiArticles category (JObj fields) = Threw TypeError.
Proof.
  intros Hst Harts. unfold newsApiArticles. cbn -[js_map lookup strictEqString].
  rewrite Hst, Harts. unfold js_map.
  exact (map_from_ok (newsApiItem category) articleOk (newsApiItem_ok category) arts 0).
Qed.

Lemma newsApiArticles_succeeds_iff_witness :
  newsApiArticles "general"
    (JObj [("status", JStr "ok");
           ("articles", JArr [sampleArticle; JObj [("title", JStr "No source")]])])
  = Threw TypeError.
Proof.
  exact (@newsApiArticles_succeeds_iff "general"
           [("status", JStr "ok");
            ("articles", JArr [sampleArticle; JObj [("title", JStr "No source")]])]
           [sampleArticle; JObj [("title", JStr "No source")]] eq_refl eq_refl).
Defined.

(** X11. One article without a source spoils the refresh: when the chain
    consults the secondary provider and its response carries an [articles]
    array in which some article has no usable [source], none of the articles
    is shown; the refresh ends in [DegradedReady] with the fixed message and
    the placeholder items, and [lastUpdated] keeps its value. *)
Theorem fetchNews_one_bad_article
  (category : string) (env : Env) (w : World)
  (fields : list (string * json)) (arts : list json) :
  secondaryConsulted env = true ->
  bodyOf (network env (secondaryRequest env category)) = Returned (JObj fields) ->
  lookup "articles" fields = Some (JArr arts) ->
  forallb articleOk arts = false ->
  terminal category env w =
    {| news := mockAt env (ticks w) (selectedCategory (ui w)); loading := false;
       error := Some fixedMessage; selectedCategory := selectedCategory (ui w);
       lastUpdated := lastUpdated (ui w) |} /\
  phase (terminal category env w) = DegradedReady.
Proof.
  intros Hc Hbody Harts Hbad.
  assert (Hs : exists e, secondaryOutcome env category = Threw e).
  { unfold secondaryOutcome. unfold secondaryRequest in Hbody.
    cbn -[newsApiArticles newsApiQuery]. rewrite Hbody.
    destruct (strictEqString (lookup "status" fields) "error") eqn:St.
    - unfold newsApiArticles. cbn -[lookup strictEqString]. rewrite St.
      eexists. reflexivity.
    - pose proof (newsApiArticles_succeeds_iff category fields St Harts) as H.
      rewrite Hbad in H. exists TypeError. exact H. }
  destruct Hs as [e Hs].
  assert (E : terminal category env w =
              {| news := mockAt env (ticks w) (selectedCategory (ui w)); loading := false;
                 error := Some fixedMessage; selectedCategory := selectedCategory (ui w);
                 lastUpdated := lastUpdated (ui w) |}).
  { rewrite terminal_settledState, chain_outcome; cbv zeta.
    unfold secondaryConsulted in Hc. apply andb_true_iff in Hc. destruct Hc as [Hn Hp].
    rewrite Hn, Hs.
    destruct (avConfigured env); cbn in Hp; [| reflexivity].
    destruct (primaryOutcome env); [discriminate Hp | reflexivity]. }
  split; [exact E | rewrite E; reflexivity].
Qed.

Lemma fetchNews_one_bad_article_witness :
  phase (terminal "general" envBrokenArticle mounted) = DegradedReady /\
  error (terminal "general" envBrokenArticle mounted) = Some fixedMessage /\
  length (news (terminal "general" envBrokenArticle mounted)) = 5%nat.
Proof.
  destruct (@fetchNews_one_bad_article "general" envBrokenArticle mounted
              [("status", JStr "ok");
               ("articles", JArr [sampleArticle; JObj [("title", JStr "No source")];
                                  sampleArticle])]
              [sampleArticle; JObj [("title", JStr "No source")]; sampleArticle]
              eq_refl eq_refl eq_refl eq_refl) as [E Hph].
  split; [exact Hph |]. rewrite E. split; reflexivity.
Defined.

(* ===================================================================== *)
(** * Where the items on display come from *)
(* ===================================================================== *)

Lemma terminal_provenance (category : string) (env : Env) (w : World) :
  news (terminal category env w) = mockAt env (ticks w) (selectedCategory (ui w))
  \/ exists items,
       items <> [] /\ news (terminal category env w) = items /\
       ((avConfigured env = true /\ primaryOutcome env = Returned items)
        \/ (secondaryConsulted env = true /\ secondaryOutcome env category = Returned items)).
Proof.
  rewrite terminal_settledState. unfold settledState.
  pose proof (chain_outcome env category) as Hc. cbv zeta in Hc.
  destruct (fst (chain env category)) as [[| x l] | e]; cbn [news]; auto.
  right. exists (x :: l). split; [discriminate |]. split; [reflexivity |].
  unfold secondaryConsulted.
  destruct (avConfigured env); cbn [negb orb].
  - destruct (primaryOutcome env) as [l' | e'].
    + left. split; [reflexivity | symmetry; exact Hc].
    + right. destruct (newsConfigured env); [| discriminate Hc].
      split; [reflexivity | symmetry; exact Hc].
  - right. destruct (newsConfigured env); [| discriminate Hc].
    split; [reflexivity | symmetry; exact Hc].
Qed.

(** X12. What a refresh puts on display comes from one source, never from
    a mixture: it is the whole non-empty result of the primary provider, or
    the whole non-empty result of the secondary provider (consulted only
    after the primary was skipped or threw), or the placeholder items for the
    selected category. *)
Theorem fetchNews_single_source (category : string) (env : Env) (w : World) :
  (exists items,
     items <> [] /\ avConfigured env = true /\ primaryOutcome env = Returned items /\
     news (terminal category env w) = items)
  \/ (exists items,
        items <> [] /\ secondaryConsulted env = true /\
        secondaryOutcome env category = Returned items /\
        news (terminal category env w) = items)
  \/ news (terminal category env w) = mockAt env (ticks w) (selectedCategory (ui w)).
Proof.
  destruct (terminal_provenance category env w)
    as [H | (items & Hne & Hn & [[Ha Hp] | [Hc Hs]])].
  - right; right. exact H.
  - left. exists items. auto.
  - right; left. exists items. auto.
Qed.

Lemma selectCategory_run (c : string) (env : Env) (w : World) :
  selectCategory c env w =
  if String.eqb (selectedCategory (ui w)) c then (Returned tt, w)
  else fetchNews c env (withSelected c w).
Proof.
  unfold selectCategory. cbn -[fetchNews String.eqb].
  destruct (String.eqb (selectedCategory (ui w)) c); reflexivity.
Qed.

(** X13. Choosing the category that is already selected does nothing: no
    request, no clock reading, the state untouched.  Choosing another one
    runs a refresh in which the new category is used throughout: it is the
    selected category afterwards, and the items shown are provider items
    fetched for it (the secondary's, if consulted, under the new category's
    query) or the placeholder items filtered for it. *)
Theorem selectCategory_switches (c : string) (env : Env) (w : World) :
  (selectedCategory (ui w) = c -> selectCategory c env w = (Returned tt, w)) /\
  (selectedCategory (ui w) <> c ->
   let s := ui (snd (selectCategory c env w)) in
   fst (selectCategory c env w) = Returned tt /\
   selectedCategory s = c /\
   (news s = mockAt env (ticks w) c
    \/ exists items,
         items <> [] /\ news s = items /\
         ((avConfigured env = true /\ primaryOutcome env = Returned items)
          \/ (secondaryConsulted env = true /\ secondaryOutcome env c = Returned items)))).
Proof.
  rewrite selectCategory_run. split.
  - intros <-. rewrite String.eqb_refl. reflexivity.
  - intros Hne. destruct (String.eqb_spec (selectedCategory (ui w)) c) as [E | _];
      [contradiction |].
    cbv zeta. split; [apply fetchNews_returns |]. split.
    + change (selectedCategory (terminal c env (withSelected c w)) = c).
      rewrite terminal_settledState. unfold settledState.
      destruct (fst (chain env c)) as [[| x l] | e]; reflexivity.
    + exact (terminal_provenance c env (withSelected c w)).
Qed.

Lemma selectCategory_switches_witness :
  selectCategory "general" envNoKeys mounted = (Returned tt, mounted) /\
  selectedCategory (ui (snd (selectCategory "earnings" envNoKeys mounted))) = "earnings" /\
  map id (news (ui (snd (selectCategory "earnings" envNoKeys mounted)))) = ["4"].
Proof.
  destruct (selectCategory_switches "general" envNoKeys mounted) as [Hsame _].
  destruct (selectCategory_switches "earnings" envNoKeys mounted) as [_ Hswitch].
  split; [apply Hsame; reflexivity |].
  destruct Hswitch as (_ & Hsel & _); [discriminate |].
  split; [exact Hsel | vm_compute; reflexivity].
Defined.

(* ===================================================================== *)
(** * Ages on display *)
(* ===================================================================== *)

Lemma formatDate_hours (parse : string -> option Z) (s : string) (now date k : Z) :
  parse s = Some date ->
  1 <= k < 24 ->
  k * 3600000 <= now - date < (k + 1) * 3600000 ->
  formatDate parse s now = Number_toString k ++ "h ago".
Proof.
  intros Hp Hk Hage. unfold formatDate. rewrite Hp.
  change (1000 * 60 * 60) with 3600000. cbv zeta.
  assert (E : (now - date) / 3600000 = k).
  { symmetry. apply (Z.div_unique (now - date) 3600000 k (now - date - k * 3600000)); lia. }
  rewrite E.
  destruct (Z.ltb_spec k 1); [lia |].
  destruct (Z.ltb_spec k 24); [reflexivity | lia].
Qed.

(** X14. [formatDate] on a date the engine can read: anything less than an
    hour old, or dated in the future, is "Just now"; from one hour up to a
    day it shows the whole hours elapsed (1 to 23); from a day on it shows the
    whole days elapsed, i.e. the age divided by 86400000, rounded down. *)
Theorem formatDate_ages (parse : string -> option Z) (s : string) (now date : Z) :
  parse s = Some date ->
  (now - date < 3600000 -> formatDate parse s now = "Just now") /\
  (3600000 <= now - date < 86400000 ->
   formatDate parse s now = Number_toString ((now - date) / 3600000) ++ "h ago" /\
   1 <= (now - date) / 3600000 <= 23) /\
  (86400000 <= now - date ->
   formatDate parse s now = Number_toString ((now - date) / 86400000) ++ "d ago" /\
   1 <= (now - date) / 86400000).
Proof.
  intros Hp. unfold formatDate. rewrite Hp.
  change (1000 * 60 * 60) with 3600000. cbv zeta.
  split; [| split]; intros Hage.
  - assert ((now - date) / 3600000 < 1) by (apply Z.div_lt_upper_bound; lia).
    destruct (Z.ltb_spec ((now - date) / 3600000) 1); [reflexivity | lia].
  - assert (1 <= (now - date) / 3600000) by (apply Z.div_le_lower_bound; lia).
    assert ((now - date) / 3600000 < 24) by (apply Z.div_lt_upper_bound; lia).
    destruct (Z.ltb_spec ((now - date) / 3600000) 1); [lia |].
    destruct (Z.ltb_spec ((now - date) / 3600000) 24); [| lia].
    split; [reflexivity | lia].
  - assert (24 <= (now - date) / 3600000) by (apply Z.div_le_lower_bound; lia).
    assert (D : (now - date) / 3600000 / 24 = (now - date) / 86400000)
      by (rewrite Z.div_div by lia; reflexivity).
    destruct (Z.ltb_spec ((now - date) / 3600000) 1); [lia |].
    destruct (Z.ltb_spec ((now - date) / 3600000) 24); [lia |].
    rewrite D. split; [reflexivity |].
    apply Z.div_le_lower_bound; lia.
Qed.

Lemma formatDate_ages_witness :
  formatDate isoReader "2023-11-12T22:13:20.000Z" 1700000000000 = "2d ago".
Proof.
  assert (Hp : isoReader "2023-11-12T22:13:20.000Z" = Some 1699827200000)
    by (vm_compute; reflexivity).
  destruct (formatDate_ages isoReader "2023-11-12T22:13:20.000Z" 1700000000000 Hp)
    as (_ & _ & Hd).
  assert (Hage : 86400000 <= 1700000000000 - 1699827200000) by lia.
  destruct (Hd Hage) as [E _]. rewrite E. vm_compute. reflexivity.
Defined.

(** X15. Rendered less than an hour after they were built, on an engine
    that reads ISO strings back, the five placeholder entries always look
    one, two, three, four and five hours old, whatever the time of day. *)
Theorem placeholder_items_look_hours_old
  (parse : string -> option Z) (t1 t2 t3 t4 t5 now : Z) :
  Forall (fun '(t, k) => readsBack parse (t - k * 3600000) /\ t <= now < t + 3600000)
         [(t1, 1); (t2, 2); (t3, 3); (t4, 4); (t5, 5)] ->
  exists s1 s2 s3 s4 s5,
    map publishedAt (mockNews t1 t2 t3 t4 t5)
    = map (fun s => Some (JStr s)) [s1; s2; s3; s4; s5] /\
    map (fun s => formatDate parse s now) [s1; s2; s3; s4; s5]
    = ["1h ago"; "2h ago"; "3h ago"; "4h ago"; "5h ago"].
Proof.
  intros H.
  apply Forall_cons_iff in H. destruct H as [[R1 B1] H].
  apply Forall_cons_iff in H. destruct H as [[R2 B2] H].
  apply Forall_cons_iff in H. destruct H as [[R3 B3] H].
  apply Forall_cons_iff in H. destruct H as [[R4 B4] H].
  apply Forall_cons_iff in H. destruct H as [[R5 B5] _].
  exists (toISOString (t1 - 3600000)), (toISOString (t2 - 7200000)),
         (toISOString (t3 - 10800000)), (toISOString (t4 - 14400000)),
         (toISOString (t5 - 18000000)).
  split; [reflexivity |].
  unfold readsBack in *. cbn [map].
  change (1 * 3600000) with 3600000 in R1. change (2 * 3600000) with 7200000 in R2.
  change (3 * 3600000) with 10800000 in R3. change (4 * 3600000) with 14400000 in R4.
  change (5 * 3600000) with 18000000 in R5.
  rewrite (formatDate_hours parse _ now (k := 1) R1) by lia.
  rewrite (formatDate_hours parse _ now (k := 2) R2) by lia.
  rewrite (formatDate_hours parse _ now (k := 3) R3) by lia.
  rewrite (formatDate_hours parse _ now (k := 4) R4) by lia.
  rewrite (formatDate_hours parse _ now (k := 5) R5) by lia.
  reflexivity.
Qed.

Lemma placeholder_items_look_hours_old_witness :
  map (fun item => match publishedAt item with
                   | Some (JStr s) => formatDate isoReader s 1700000010000
                   | _ => ""
                   end)
      (mockNews (tickingClock 0) (tickingClock 1) (tickingClock 2)
                (tickingClock 3) (tickingClock 4))
  = ["1h ago"; "2h ago"; "3h ago"; "4h ago"; "5h ago"].
Proof.
  assert (H : Forall (fun '(t, k) => readsBack isoReader (t - k * 3600000)
                                     /\ t <= 1700000010000 < t + 3600000)
                     [(tickingClock 0, 1); (tickingClock 1, 2); (tickingClock 2, 3);
                      (tickingClock 3, 4); (tickingClock 4, 5)]).
  { repeat (apply Forall_cons; [split; [vm_compute; reflexivity | vm_compute; split; congruence] |]).
    apply Forall_nil. }
  destruct (@placeholder_items_look_hours_old isoReader _ _ _ _ _ _ H)
    as (s1 & s2 & s3 & s4 & s5 & Hp & Hf).
  cbn [map mockNews mockEntry publishedAt] in Hp |- *.
  injection Hp as <- <- <- <- <-. exact Hf.
Defined.

(** X16. The header's "Updated ..." counts from the last refresh whose
    provider chain did not throw.  Rendered on an engine that reads ISO
    strings back: after a refresh that ended without error message the header
    reads "Updated Just now" for the following hour; after a refresh that
    ended with the fixed message the header is the same as if that refresh
    had not happened. *)
Theorem updatedLabel_after_refresh
  (parse : string -> option Z) (cat : string) (env : Env) (w : World) (now : Z) :
  readsBack parse (lastUpdated (terminal cat env w)) ->
  (error (terminal cat env w) = None /\
   (lastUpdated (terminal cat env w) <= now < lastUpdated (terminal cat env w) + 3600000 ->
    updatedLabel parse (terminal cat env w) now = "Updated Just now"))
  \/
  (error (terminal cat env w) = Some fixedMessage /\
   updatedLabel parse (terminal cat env w) now = updatedLabel parse (ui w) now).
Proof.
  intros Hr.
  destruct (terminal_cases cat env w)
    as [(x & l & _ & E & _) | [(_ & E & _) | (e & _ & E & _)]]; cbv zeta in E;
    fold (terminal cat env w) in E.
  1, 2: left; split; [rewrite E; reflexivity |]; intros Hnow;
        unfold updatedLabel;
        rewrite (proj1 (formatDate_ages parse _ now Hr)) by lia; reflexivity.
  right. split; [rewrite E; reflexivity |].
  unfold updatedLabel. rewrite E. reflexivity.
Qed.

Lemma updatedLabel_after_refresh_witness :
  updatedLabel isoReader (terminal "general" envNoKeys mounted) 1700000600000
  = "Updated Just now".
Proof.
  assert (Hr : readsBack isoReader (lastUpdated (terminal "general" envNoKeys mounted)))
    by (vm_compute; reflexivity).
  destruct (@updatedLabel_after_refresh isoReader "general" envNoKeys mounted
              1700000600000 Hr) as [[_ H] | [H _]].
  - apply H. vm_compute. split; congruence.
  - vm_compute in H. discriminate H.
Defined.

(* ===================================================================== *)
(** * The chat assistant: sending a message *)
(* ===================================================================== *)

Lemma sendMessage_run (message : string) (env : AskAI.Env) (w : AskAI.World) :
  AskAI.sendMessage message env w =
  if String.eqb (AskAI.trim message) "" then (Returned tt, w)
  else (Returned tt, AskAI.settled env w message).
Proof.
  unfold AskAI.sendMessage.
  destruct (String.eqb (AskAI.trim message) ""); [reflexivity |].
  unfold AskAI.settled, AskAI.envelope, AskAI.posted, AskAI.finally, AskAI.post_json.
  cbn -[AskAI.chatRequest AskAI.firstChoiceContent AskAI.apology bodyOf prop truthy
        String.eqb Number_toString AskAI.OPENAI_API_KEY].
  destruct (String.eqb (AskAI.OPENAI_API_KEY env) "").
  - cbn. rewrite <- app_assoc. reflexivity.
  - cbn -[AskAI.chatRequest AskAI.firstChoiceContent AskAI.apology bodyOf prop truthy
          Number_toString AskAI.OPENAI_API_KEY].
    destruct (bodyOf _) as [data | e];
      cbn -[AskAI.chatRequest AskAI.firstChoiceContent AskAI.apology prop truthy
            Number_toString AskAI.OPENAI_API_KEY].
    + destruct (prop (Some data) "error") as [err | e];
        cbn -[AskAI.chatRequest AskAI.firstChoiceContent AskAI.apology prop truthy
              Number_toString AskAI.OPENAI_API_KEY].
      * destruct (truthy err);
          cbn -[AskAI.chatRequest AskAI.firstChoiceContent AskAI.apology prop
                Number_toString AskAI.OPENAI_API_KEY].
        -- destruct (prop err "message") as [m | e];
             cbn -[AskAI.chatRequest AskAI.apology Number_toString AskAI.OPENAI_API_KEY];
             rewrite <- !app_assoc; reflexivity.
        -- destruct (AskAI.firstChoiceContent data) as [answer | e];
             cbn -[AskAI.chatRequest AskAI.apology Number_toString AskAI.OPENAI_API_KEY];
             rewrite <- ?app_assoc; reflexivity.
      * rewrite <- !app_assoc; reflexivity.
    + rewrite <- !app_assoc; reflexivity.
Qed.

Lemma isWhiteSpace_In (c : string) :
  AskAI.isWhiteSpace c = true <-> In c AskAI.whiteSpace.
Proof.
  unfold AskAI.isWhiteSpace. rewrite existsb_exists. split.
  - intros (x & Hin & E). apply String.eqb_eq in E. subst x. exact Hin.
  - intros H. exists c. split; [exact H | apply String.eqb_refl].
Qed.

(** [trimStart] steps over one white-space character, whatever its
    width. *)
Lemma trimStart_white (c s : string) :
  In c AskAI.whiteSpace -> AskAI.trimStart (c ++ s) = AskAI.trimStart s.
Proof.
  intros H. unfold AskAI.whiteSpace in H. cbn in H.
  repeat (destruct H as [<- | H]; [reflexivity |]). destruct H.
Qed.

(** Either [trimStart] leaves the string as it is, or the string starts with
    a white-space character and [trimStart] goes on behind it. *)
Lemma trimStart_cases (s : string) :
  AskAI.trimStart s = s
  \/ exists c r, In c AskAI.whiteSpace /\ s = c ++ r /\
                 (String.length r < String.length s)%nat /\
                 AskAI.trimStart s = AskAI.trimStart r.
Proof.
  destruct s as [| c1 r1]; [left; reflexivity |].
  destruct (AskAI.isWhiteSpace (String c1 "")) eqn:W1.
  { right. exists (String c1 ""), r1.
    split; [apply isWhiteSpace_In; exact W1 |]. split; [reflexivity |].
    split; [cbn; lia |]. cbn -[AskAI.isWhiteSpace]. rewrite W1. reflexivity. }
  destruct r1 as [| c2 r2].
  { left. cbn -[AskAI.isWhiteSpace]. rewrite W1. reflexivity. }
  destruct (AskAI.isWhiteSpace (String c1 (String c2 ""))) eqn:W2.
  { right. exists (String c1 (String c2 "")), r2.
    split; [apply isWhiteSpace_In; exact W2 |]. split; [reflexivity |].
    split; [cbn; lia |]. cbn -[AskAI.isWhiteSpace]. rewrite W1, W2. reflexivity. }
  destruct r2 as [| c3 r3].
  { left. cbn -[AskAI.isWhiteSpace]. rewrite W1, W2. reflexivity. }
  destruct (AskAI.isWhiteSpace (String c1 (String c2 (String c3 "")))) eqn:W3.
  { right. exists (String c1 (String c2 (String c3 ""))), r3.
    split; [apply isWhiteSpace_In; exact W3 |]. split; [reflexivity |].
    split; [cbn; lia |]. cbn -[AskAI.isWhiteSpace]. rewrite W1, W2, W3. reflexivity. }
  left. cbn -[AskAI.isWhiteSpace]. rewrite W1, W2, W3. reflexivity.
Qed.

Lemma Blank_trimStart (s : string) : AskAI.Blank s -> AskAI.trimStart s = "".
Proof.
  induction 1 as [| c s Hc _ IH]; [reflexivity |].
  rewrite trimStart_white by exact Hc. exact IH.
Qed.

Lemma trimStart_Blank (s : string) : AskAI.trimStart s = "" -> AskAI.Blank s.
Proof.
  remember (String.length s) as n eqn:Hn. revert s Hn.
  induction n as [n IH] using lt_wf_ind. intros s Hn E.
  destruct (trimStart_cases s) as [Hs | (c & r & Hc & -> & Hlt & Hr)].
  - rewrite Hs in E. subst s. constructor.
  - constructor; [exact Hc |].
    apply (IH (String.length r)); [lia | reflexivity | congruence].
Qed.

(** What [trimStart] returns has no white space left in front. *)
Lemma trimStart_fixed (s : string) :
  AskAI.trimStart (AskAI.trimStart s) = AskAI.trimStart s.
Proof.
  remember (String.length s) as n eqn:Hn. revert s Hn.
  induction n as [n IH] using lt_wf_ind. intros s Hn.
  destruct (trimStart_cases s) as [Hs | (c & r & Hc & Hs & Hlt & Hr)].
  - rewrite !Hs. reflexivity.
  - rewrite Hr. apply (IH (String.length r)); [lia | reflexivity].
Qed.

(** [trim] leaves nothing exactly when the string is made of white-space
    characters only. *)
Lemma trim_blank (s : string) : AskAI.trim s = "" <-> AskAI.Blank s.
Proof.
  unfold AskAI.trim. split.
  - intros H. apply trimStart_Blank.
    destruct (String.eqb_spec (AskAI.trimStart (AskAI.trimStart s)) "") as [E | N].
    + rewrite trimStart_fixed in E. exact E.
    + destruct (AskAI.trimStart s) as [| a t]; [reflexivity |].
      exfalso. cbn -[AskAI.trimStart String.eqb] in H.
      destruct (String.eqb_spec (AskAI.trimStart (String a t)) "") as [E | _];
        [contradiction | discriminate H].
  - intros B. rewrite (Blank_trimStart B). reflexivity.
Qed.

(** A way to decide [Blank] on a given string. *)
Lemma nonblank_by_trim (s : string) : AskAI.trim s <> "" -> ~ AskAI.Blank s.
Proof. intros N B. apply N, trim_blank, B. Qed.

Lemma blank_by_trim (s : string) : AskAI.trim s = "" -> AskAI.Blank s.
Proof. apply trim_blank. Qed.

(** X17. A message made of white space only (or empty) is ignored by
    [sendMessage]: nothing is appended to the conversation, no request is
    sent, the typed text stays in the input and the clock is not read.  White
    space is all that [trim] strips: the ASCII blanks and line ends, the
    no-break space, the byte-order mark, the line and paragraph separators
    and the space separators of Unicode. *)
Theorem sendMessage_ignores_blank (message : string) (env : AskAI.Env) (w : AskAI.World) :
  AskAI.Blank message ->
  AskAI.sendMessage message env w = (Returned tt, w).
Proof.
  intros H. rewrite sendMessage_run.
  apply trim_blank in H. rewrite H. reflexivity.
Qed.

Lemma sendMessage_ignores_blank_witness :
  AskAI.Blank (" " ++ AskAI.bytes [194; 160] ++ AskAI.bytes [9] ++ AskAI.bytes [226; 128; 168])
  /\ AskAI.sendMessage
       (" " ++ AskAI.bytes [194; 160] ++ AskAI.bytes [9] ++ AskAI.bytes [226; 128; 168])
       AskAI.envUp AskAI.fresh
     = (Returned tt, AskAI.fresh).
Proof.
  assert (B : AskAI.Blank (" " ++ AskAI.bytes [194; 160] ++ AskAI.bytes [9]
                           ++ AskAI.bytes [226; 128; 168]))
    by (apply blank_by_trim; vm_compute; reflexivity).
  split; [exact B |].
  apply sendMessage_ignores_blank. exact B.
Defined.

Lemma sendMessage_nonblank (message : string) (env : AskAI.Env) (w : AskAI.World) :
  ~ AskAI.Blank message ->
  AskAI.sendMessage message env w = (Returned tt, AskAI.settled env w message).
Proof.
  intros H. rewrite sendMessage_run.
  destruct (String.eqb_spec (AskAI.trim message) "") as [E | _]; [| reflexivity].
  apply trim_blank in E. contradiction.
Qed.

(** X18. A message that is not made of white space only (white space
    being all that [trim] strips, the no-break space and the other Unicode
    spaces included) always gets through and always gets a reply:
    [sendMessage] returns normally, the conversation grows by exactly two messages -- the user's
    text, verbatim (not trimmed), then one from the assistant, which is the
    answer's content when the attempt succeeded and an apology otherwise --
    everything said before is kept in place, the input is cleared, the
    loading flag is off, and at most one request was sent. *)
Theorem sendMessage_appends_two (message : string) (env : AskAI.Env) (w : AskAI.World) :
  ~ AskAI.Blank message ->
  exists (u r : AskAI.Message) (es : list AskAI.event),
    fst (AskAI.sendMessage message env w) = Returned tt /\
    AskAI.messages (AskAI.ui (snd (AskAI.sendMessage message env w)))
    = (AskAI.messages (AskAI.ui w) ++ [u; r])%list /\
    AskAI.role u = AskAI.user /\ AskAI.content u = Some (JStr message) /\
    AskAI.role r = AskAI.assistant /\
    AskAI.content r
    = match AskAI.attempt env (AskAI.messages (AskAI.ui w)) message with
      | Returned answer => answer
      | Threw e => Some (JStr (AskAI.apology env e))
      end /\
    AskAI.inputMessage (AskAI.ui (snd (AskAI.sendMessage message env w))) = "" /\
    AskAI.isLoading (AskAI.ui (snd (AskAI.sendMessage message env w))) = false /\
    AskAI.trace (snd (AskAI.sendMessage message env w))
    = (AskAI.trace w ++ AskAI.posted env (AskAI.messages (AskAI.ui w)) message ++ es)%list /\
    (length (AskAI.posted env (AskAI.messages (AskAI.ui w)) message) <= 1)%nat /\
    (forall e, In e es -> e = AskAI.EError "Error sending message:").
Proof.
  intros H. rewrite (@sendMessage_nonblank message env w H). cbn [fst snd].
  assert (Hp : (length (AskAI.posted env (AskAI.messages (AskAI.ui w)) message) <= 1)%nat)
    by (unfold AskAI.posted; destruct (String.eqb _ ""); cbn; lia).
  unfold AskAI.settled, AskAI.attempt.
  cbn -[AskAI.envelope AskAI.firstChoiceContent AskAI.apology AskAI.posted].
  destruct (AskAI.envelope env (AskAI.messages (AskAI.ui w)) message) as [data | e].
  - destruct (AskAI.firstChoiceContent data) as [answer | e].
    + do 2 eexists. exists []. repeat (split; [reflexivity || exact Hp |]).
      intros e [].
    + do 2 eexists. exists [AskAI.EError "Error sending message:"].
      repeat (split; [reflexivity || exact Hp |]).
      intros e' [<- | []]. reflexivity.
  - do 2 eexists. exists [AskAI.EError "Error sending message:"].
    repeat (split; [reflexivity || exact Hp |]).
    intros e' [<- | []]. reflexivity.
Qed.

Lemma sendMessage_appends_two_witness :
  map AskAI.role (AskAI.messages (AskAI.ui (snd (AskAI.sendMessage "  hi  " AskAI.envUp AskAI.fresh))))
  = [AskAI.assistant; AskAI.user; AskAI.assistant] /\
  map AskAI.content (AskAI.messages (AskAI.ui (snd (AskAI.sendMessage "  hi  " AskAI.envUp AskAI.fresh))))
  = [AskAI.content (AskAI.greeting 1699999990000); Some (JStr "  hi  ");
     Some (JStr "A stock is a share.")].
Proof.
  assert (H : ~ AskAI.Blank "  hi  ")
    by (apply nonblank_by_trim; vm_compute; discriminate).
  destruct (@sendMessage_appends_two "  hi  " AskAI.envUp AskAI.fresh H)
    as (u & r & es & _ & Hm & Hur & Huc & Hrr & Hrc & _).
  rewrite Hm. cbn [AskAI.messages AskAI.ui AskAI.fresh map app].
  rewrite Hur, Huc, Hrr, Hrc. split; [reflexivity |].
  vm_compute. reflexivity.
Defined.

Lemma apology_missing_key (env : AskAI.Env) :
  AskAI.apology env (Error (Some (JStr "OpenAI API key not configured")))
  = AskAI.notConfiguredReply.
Proof. vm_compute. reflexivity. Qed.

(** X19. Without an API key in the configuration a message that is not
    made of white space only is still taken into the conversation, no request
    is sent, and the assistant replies with the "not configured properly"
    text. *)
Theorem sendMessage_without_key (message : string) (env : AskAI.Env) (w : AskAI.World) :
  ~ AskAI.Blank message ->
  AskAI.OPENAI_API_KEY env = "" ->
  exists u r,
    AskAI.messages (AskAI.ui (snd (AskAI.sendMessage message env w)))
    = (AskAI.messages (AskAI.ui w) ++ [u; r])%list /\
    AskAI.content u = Some (JStr message) /\
    AskAI.role r = AskAI.assistant /\
    AskAI.content r = Some (JStr AskAI.notConfiguredReply) /\
    AskAI.trace (snd (AskAI.sendMessage message env w))
    = (AskAI.trace w ++ [AskAI.EError "Error sending message:"])%list.
Proof.
  intros H Hk. rewrite (@sendMessage_nonblank message env w H). cbn [snd].
  unfold AskAI.settled, AskAI.envelope, AskAI.posted. rewrite Hk.
  cbn -[AskAI.apology Number_toString].
  do 2 eexists. split; [reflexivity |]. split; [reflexivity |]. split; [reflexivity |].
  split; [| reflexivity].
  cbn [AskAI.content AskAI.assistantMessage]. rewrite apology_missing_key. reflexivity.
Qed.

Lemma sendMessage_without_key_witness :
  map AskAI.content
      (AskAI.messages (AskAI.ui (snd (AskAI.sendMessage "hi" AskAI.envNoKey AskAI.fresh))))
  = [AskAI.content (AskAI.greeting 1699999990000); Some (JStr "hi");
     Some (JStr AskAI.notConfiguredReply)].
Proof.
  assert (H : ~ AskAI.Blank "hi")
    by (apply nonblank_by_trim; vm_compute; discriminate).
  assert (Hk : AskAI.OPENAI_API_KEY AskAI.envNoKey = "") by reflexivity.
  destruct (@sendMessage_without_key "hi" AskAI.envNoKey AskAI.fresh H Hk)
    as (u & r & Hm & Huc & _ & Hrc & _).
  rewrite Hm. cbn [AskAI.messages AskAI.ui AskAI.fresh map app].
  rewrite Huc, Hrc. reflexivity.
Defined.

(** X20. An error envelope decides the reply, whatever else the body
    holds: when the service answers with an [error] object whose [message] is
    a string, none of the body's choices is shown, and the assistant replies
    with the "not configured properly" text if that message mentions
    "API key" (as the service's rejection of a wrong key does) and with the
    "trouble connecting" text otherwise. *)
Theorem sendMessage_error_envelope
  (message : string) (env : AskAI.Env) (w : AskAI.World)
  (fields efields : list (string * json)) (m : string) :
  ~ AskAI.Blank message ->
  AskAI.OPENAI_API_KEY env <> "" ->
  bodyOf (AskAI.network env (AskAI.chatRequest (AskAI.OPENAI_API_KEY env)
                                               (AskAI.messages (AskAI.ui w)) message))
  = Returned (JObj fields) ->
  lookup "error" fields = Some (JObj efields) ->
  lookup "message" efields = Some (JStr m) ->
  exists u r,
    AskAI.messages (AskAI.ui (snd (AskAI.sendMessage message env w)))
    = (AskAI.messages (AskAI.ui w) ++ [u; r])%list /\
    AskAI.role r = AskAI.assistant /\
    AskAI.content r
    = Some (JStr (if includes m "API key"
                  then AskAI.notConfiguredReply else AskAI.troubleReply)).
Proof.
  intros H Hk Hbody Herr Hmsg. rewrite (@sendMessage_nonblank message env w H). cbn [snd].
  unfold AskAI.settled, AskAI.envelope.
  destruct (String.eqb_spec (AskAI.OPENAI_API_KEY env) "") as [E | _]; [contradiction |].
  rewrite Hbody. cbn -[AskAI.apology Number_toString AskAI.posted lookup]. rewrite Herr.
  cbn -[AskAI.apology Number_toString AskAI.posted lookup]. rewrite Hmsg.
  cbn -[AskAI.apology Number_toString AskAI.posted lookup].
  do 2 eexists. split; [reflexivity |]. split; reflexivity.
Qed.

Lemma sendMessage_error_envelope_witness :
  map AskAI.content
      (AskAI.messages (AskAI.ui (snd (AskAI.sendMessage "hi" AskAI.envBadKey AskAI.fresh))))
  = [AskAI.content (AskAI.greeting 1699999990000); Some (JStr "hi");
     Some (JStr AskAI.notConfiguredReply)].
Proof.
  assert (H : ~ AskAI.Blank "hi")
    by (apply nonblank_by_trim; vm_compute; discriminate).
  assert (Hk : AskAI.OPENAI_API_KEY AskAI.envBadKey <> "") by discriminate.
  destruct (@sendMessage_error_envelope "hi" AskAI.envBadKey AskAI.fresh
              [("error", JObj [("message", JStr "Incorrect API key provided: sk-wrong.");
                               ("type", JStr "invalid_request_error")])]
              [("message", JStr "Incorrect API key provided: sk-wrong.");
               ("type", JStr "invalid_request_error")]
              "Incorrect API key provided: sk-wrong." H Hk eq_refl eq_refl eq_refl)
    as (u & r & Hm & _ & Hrc).
  assert (Hu : AskAI.content u = Some (JStr "hi")).
  { apply (f_equal (fun l => nth_error (map AskAI.content l) 1)) in Hm.
    vm_compute in Hm. injection Hm as Hm. symmetry. exact Hm. }
  rewrite Hm. cbn [AskAI.messages AskAI.ui AskAI.fresh map app].
  rewrite Hu, Hrc. vm_compute. reflexivity.
Defined.

Lemma lastN_suffix {A : Type} (n : nat) (l : list A) :
  l = (firstn (length l - n) l ++ AskAI.lastN n l)%list /\
  length (AskAI.lastN n l) = Nat.min n (length l).
Proof.
  unfold AskAI.lastN. split.
  - symmetry. apply firstn_skipn.
  - rewrite length_skipn. lia.
Qed.

(** X21. The request of a call carries a bounded window of the
    conversation: the system prompt first, then the ten most recent earlier
    messages (all of them when there are at most ten) with their roles and
    contents, in order, then the new message as the last turn -- at most
    twelve turns, however long the conversation has grown.  It is sent with
    the configured key as bearer token. *)
Theorem sendMessage_context_window (message : string) (env : AskAI.Env) (w : AskAI.World) :
  ~ AskAI.Blank message ->
  AskAI.OPENAI_API_KEY env <> "" ->
  exists (r : AskAI.ChatRequest) (older recent : list AskAI.Message) (es : list AskAI.event),
    AskAI.trace (snd (AskAI.sendMessage message env w))
    = (AskAI.trace w ++ AskAI.EPost r :: es)%list /\
    (forall r', ~ In (AskAI.EPost r') es) /\
    AskAI.messages (AskAI.ui w) = (older ++ recent)%list /\
    length recent = Nat.min 10 (length (AskAI.messages (AskAI.ui w))) /\
    AskAI.turns r
    = ({| AskAI.turnRole := "system"; AskAI.turnContent := Some (JStr AskAI.systemPrompt) |}
       :: map (fun msg => {| AskAI.turnRole := AskAI.roleName (AskAI.role msg);
                             AskAI.turnContent := AskAI.content msg |}) recent
       ++ [{| AskAI.turnRole := "user"; AskAI.turnContent := Some (JStr message) |}])%list /\
    (length (AskAI.turns r) <= 12)%nat /\
    AskAI.authorization r = "Bearer " ++ AskAI.OPENAI_API_KEY env.
Proof.
  intros H Hk. rewrite (@sendMessage_nonblank message env w H). cbn [snd].
  destruct (lastN_suffix 10 (AskAI.messages (AskAI.ui w))) as [Hsplit Hlen].
  exists (AskAI.chatRequest (AskAI.OPENAI_API_KEY env) (AskAI.messages (AskAI.ui w)) message),
         (firstn (length (AskAI.messages (AskAI.ui w)) - 10) (AskAI.messages (AskAI.ui w))),
         (AskAI.lastN 10 (AskAI.messages (AskAI.ui w))).
  assert (Hpost : AskAI.posted env (AskAI.messages (AskAI.ui w)) message
                  = [AskAI.EPost (AskAI.chatRequest (AskAI.OPENAI_API_KEY env)
                                                   (AskAI.messages (AskAI.ui w)) message)]).
  { unfold AskAI.posted.
    destruct (String.eqb_spec (AskAI.OPENAI_API_KEY env) ""); [contradiction | reflexivity]. }
  assert (Hturns : (length (AskAI.turns
                      (AskAI.chatRequest (AskAI.OPENAI_API_KEY env)
                                         (AskAI.messages (AskAI.ui w)) message)) <= 12)%nat).
  { cbn [AskAI.turns AskAI.chatRequest length].
    rewrite length_app, length_map, Hlen. cbn [length]. lia. }
  unfold AskAI.settled.
  destruct (AskAI.envelope env (AskAI.messages (AskAI.ui w)) message) as [data | e];
    [destruct (AskAI.firstChoiceContent data) as [answer | e] |];
    cbn [AskAI.trace]; rewrite Hpost;
    eexists; (split; [reflexivity |]);
    (split; [intros r' Hin; cbn in Hin;
             repeat (destruct Hin as [Hin | Hin]; [discriminate Hin |]); exact Hin |]);
    (split; [exact Hsplit |]); (split; [exact Hlen |]);
    (split; [reflexivity |]); (split; [exact Hturns | reflexivity]).
Qed.

Lemma sendMessage_context_window_witness :
  exists r es,
    AskAI.trace
      (snd (AskAI.sendMessage "hi" AskAI.envUp
              {| AskAI.ui := {| AskAI.messages := repeat (AskAI.greeting 0) 13;
                                AskAI.inputMessage := "hi"; AskAI.isLoading := false |};
                 AskAI.ticks := 0; AskAI.trace := [] |}))
    = AskAI.EPost r :: es /\
    (length (AskAI.turns r) <= 12)%nat.
Proof.
  assert (H : ~ AskAI.Blank "hi")
    by (apply nonblank_by_trim; vm_compute; discriminate).
  assert (Hk : AskAI.OPENAI_API_KEY AskAI.envUp <> "") by discriminate.
  destruct (@sendMessage_context_window "hi" AskAI.envUp
              {| AskAI.ui := {| AskAI.messages := repeat (AskAI.greeting 0) 13;
                                AskAI.inputMessage := "hi"; AskAI.isLoading := false |};
                 AskAI.ticks := 0; AskAI.trace := [] |} H Hk)
    as (r & older & recent & es & Ht & _ & _ & _ & _ & Hl & _).
  exists r, es. split; [exact Ht | exact Hl].
Defined.
